(** * tinygp tutorials and news workflow: a verification development

    The repository holds one GitHub Actions workflow
    ([.github/workflows/news.yml]) and five tutorial notebooks.  This file
    embeds

    - the workflow as a record, together with the runner's step semantics
      (sequential, stop at the first failing step) and the [paths-ignore]
      trigger filter;
    - [mean_function] of the mean-function tutorial over a small model of
      [jax.numpy] arrays with shapes, broadcasting and shape errors;
    - the [Multiband] and [Latent] kernel wrappers of the quasiseparable
      tutorial;
    - the loop of that tutorial which fills [off_diags] for the banded
      noise model, over a model of NumPy slicing and masked assignment;
    - the statement structure of every code cell of the notebooks.

    Arrays come in two models.  [Jnp] has real numbers as entries and
    serves the statements on shapes, errors, selection and the order of
    the operations, which do not depend on rounding.  [F64] has the
    binary64 numbers of IEEE 754 as entries, with their rounded
    operations, and serves the statements on the values returned. *)

From Stdlib Require Import List String Ascii Bool Arith ZArith Lia.
From Stdlib Require Import Reals Lra.
From Stdlib Require Import Sorted.
From Stdlib Require Import Floats.
Import ListNotations.

(* ================================================================== *)
(** * The news workflow *)
(* ================================================================== *)

Module Workflow.

Local Open Scope string_scope.

(** ** Data model: the YAML document *)

(** One entry of [jobs.<id>.steps].  [step_if] and [continue_on_error]
    are the two keys with which a step can react to an earlier failure;
    the news workflow sets neither. *)
Record step := {
  step_name : option string;
  step_uses : option string;
  step_with : list (string * string);
  step_run : list string;
  step_if : option string;
  continue_on_error : bool
}.

Record job := {
  runs_on : string;
  steps : list step
}.

(** One entry of [on]: the event name and its [paths-ignore] filter. *)
Record trigger := {
  event : string;
  paths_ignore : option (list string)
}.

Record workflow := {
  name : string;
  on_ : list trigger;
  jobs : list (string * job)
}.

Definition checkout : step := {|
  step_name := None;
  step_uses := Some "actions/checkout@v2";
  step_with := [("fetch-depth", "0")];
  step_run := [];
  step_if := None;
  continue_on_error := false
|}.

Definition setup_python : step := {|
  step_name := Some "Setup Python";
  step_uses := Some "actions/setup-python@v2";
  step_with := [("python-version", "3.9")];
  step_run := [];
  step_if := None;
  continue_on_error := false
|}.

Definition towncrier_archive : string :=
  "https://github.com/twisted/towncrier/archive/6b1527b6bf2cbb293ef411ac4f300bd50a5c98ae.zip".

Definition install_dependencies : step := {|
  step_name := Some "Install dependencies";
  step_uses := None;
  step_with := [];
  step_run := [ "python -m pip install -U pip";
                "# FIXME: using github towncrier until next release";
                "python -m pip install " ++ towncrier_archive ];
  step_if := None;
  continue_on_error := false
|}.

Definition check_for_news : step := {|
  step_name := Some "Check for news";
  step_uses := None;
  step_with := [];
  step_run := [ "python -m towncrier check --compare-with origin/main" ];
  step_if := None;
  continue_on_error := false
|}.

Definition news_job : job := {|
  runs_on := "ubuntu-latest";
  steps := [checkout; setup_python; install_dependencies; check_for_news]
|}.

Definition news : workflow := {|
  name := "News";
  on_ := [ {| event := "pull_request";
              paths_ignore := Some [".pre-commit-config.yaml"] |} ];
  jobs := [("news", news_job)]
|}.

(** ** Reading the document *)

Fixpoint assoc {A} (k : string) (l : list (string * A)) : option A :=
  match l with
  | [] => None
  | (k', v) :: l' => if String.eqb k k' then Some v else assoc k l'
  end.

(** A line of a [run] script is a shell comment when it starts with [#]. *)
Definition is_comment (line : string) : bool :=
  match line with
  | String c _ => Ascii.eqb c "#"
  | EmptyString => false
  end.

Definition commands (s : step) : list string :=
  filter (fun l => negb (is_comment l)) (step_run s).

(** ** The runner: steps of a job *)

Inductive conclusion := success | failure.

(** What one step does is not decided by the workflow file: it is the
    runner's, the action's or the shell's.  [PR] is the pull request the
    run is for, [Env] the state of the virtual machine. *)
Definition runner (PR Env : Type) : Type :=
  step -> PR -> Env -> conclusion * Env.

(** Steps run one after the other.  A step without [if] runs only while
    every earlier step has succeeded; a failing step without
    [continue-on-error] fails the job.  The key [if] is not interpreted:
    no step of the news job has one.  The result holds the job's
    conclusion, the steps that were started and the final state. *)
Fixpoint run_steps {PR Env} (r : runner PR Env) (ss : list step)
    (pr : PR) (env : Env) : conclusion * list step * Env :=
  match ss with
  | [] => (success, [], env)
  | s :: rest =>
      match r s pr env with
      | (success, env') =>
          let '(c, started, env'') := run_steps r rest pr env' in
          (c, s :: started, env'')
      | (failure, env') =>
          if continue_on_error s then
            let '(c, started, env'') := run_steps r rest pr env' in
            (c, s :: started, env'')
          else (failure, [s], env')
      end
  end.

Definition run_job {PR Env} (r : runner PR Env) (j : job) (pr : PR) (env : Env)
  : conclusion * list step * Env :=
  run_steps r (steps j) pr env.

Definition job_conclusion {PR Env} (r : runner PR Env) (j : job) (pr : PR)
    (env : Env) : conclusion :=
  fst (fst (run_job r j pr env)).

Definition steps_started {PR Env} (r : runner PR Env) (j : job) (pr : PR)
    (env : Env) : list step :=
  snd (fst (run_job r j pr env)).

(** ** The trigger: events and path filters *)

(** A filter pattern: [*] matches any run of characters other than [/],
    [**] any run of characters, every other character itself. *)
Fixpoint glob (pat : string) : string -> bool :=
  match pat with
  | EmptyString =>
      fun s => match s with EmptyString => true | String _ _ => false end
  | String c pat' =>
      if Ascii.eqb c "*" then
        match pat' with
        | String "*" pat'' =>
            fix any (s : string) : bool :=
              glob pat'' s
              || match s with
                 | EmptyString => false
                 | String _ s' => any s'
                 end
        | _ =>
            fix segment (s : string) : bool :=
              glob pat' s
              || match s with
                 | EmptyString => false
                 | String d s' => negb (Ascii.eqb d "/") && segment s'
                 end
        end
      else
        fun s =>
          match s with
          | EmptyString => false
          | String d s' => Ascii.eqb c d && glob pat' s'
          end
  end.

(** An event as the trigger sees it: its name and the paths it changed. *)
Record gh_event := {
  ev_name : string;
  ev_paths : list string
}.

Definition path_ignored (pats : list string) (p : string) : bool :=
  existsb (fun pat => glob pat p) pats.

(** With [paths-ignore] the workflow runs unless every changed path
    matches one of the patterns. *)
Definition trigger_fires (t : trigger) (e : gh_event) : bool :=
  String.eqb (event t) (ev_name e)
  && match paths_ignore t with
     | None => true
     | Some pats => negb (forallb (path_ignored pats) (ev_paths e))
     end.

Definition triggered (w : workflow) (e : gh_event) : bool :=
  existsb (fun t => trigger_fires t e) (on_ w).

(** A pattern without [*] is a literal path. *)
Fixpoint literal (pat : string) : bool :=
  match pat with
  | EmptyString => true
  | String c pat' => negb (Ascii.eqb c "*") && literal pat'
  end.

(** ** The news job and the changelog check *)

(** The steps before [Check for news]. *)
Definition setup_steps : list step :=
  [checkout; setup_python; install_dependencies].

(** What towncrier promises of [towncrier check --compare-with origin/main]:
    it exits with a non-zero status exactly when the pull request holds no
    news fragment.  [has_fragment] is towncrier's reading of the pull
    request; neither is part of this repository. *)
Definition towncrier_contract {PR Env} (r : runner PR Env)
    (has_fragment : PR -> bool) : Prop :=
  forall pr env,
    fst (r check_for_news pr env) = failure <-> has_fragment pr = false.

Definition named (n : string) (s : step) : bool :=
  match step_name s with
  | Some n' => String.eqb n n'
  | None => false
  end.


(** A run in which every step does what it should. *)
Definition online_runner : runner bool unit :=
  fun s pr env =>
    if named "Check for news" s then
      ((if pr then success else failure), tt)
    else (success, tt).

End Workflow.

(* ================================================================== *)
(** * Python results and exceptions *)
(* ================================================================== *)

Module Py.

(** The exceptions the modelled calls raise.  [Unmodelled] marks a value
    this development has no representation for (an array of rank 3). *)
Inductive exn :=
| ValueError
| TypeError
| IndexError
| KeyError
| Unmodelled.

Inductive result (A : Type) : Type :=
| Ok (a : A)
| Raise (e : exn).

Arguments Ok {A} a.
Arguments Raise {A} e.

Definition bind {A B} (m : result A) (f : A -> result B) : result B :=
  match m with
  | Ok a => f a
  | Raise e => Raise e
  end.

Fixpoint mapM {A B} (f : A -> result B) (l : list A) : result (list B) :=
  match l with
  | [] => Ok []
  | a :: l' =>
      bind (f a) (fun b => bind (mapM f l') (fun bs => Ok (b :: bs)))
  end.

End Py.

Notation "x <- m ;; k" := (Py.bind m (fun x => k))
  (at level 61, m at next level, right associativity).

(* ================================================================== *)
(** * jax.numpy arrays of rank at most two *)
(* ================================================================== *)

Module Jnp.

Import Py.
Local Open Scope R_scope.

Inductive ndarray :=
| Scalar (x : R)
| Vector (v : list R)
| Matrix (m : list (list R)).

Definition shape (a : ndarray) : list nat :=
  match a with
  | Scalar _ => []
  | Vector v => [List.length v]
  | Matrix m => [List.length m; List.length (hd [] m)]
  end.

Fixpoint shape_eqb (s1 s2 : list nat) : bool :=
  match s1, s2 with
  | [], [] => true
  | n1 :: s1', n2 :: s2' => (n1 =? n2)%nat && shape_eqb s1' s2'
  | _, _ => false
  end.

(** Unary element-wise functions ([jnp.exp], [jnp.square]). *)
Definition map_nd (f : R -> R) (a : ndarray) : ndarray :=
  match a with
  | Scalar x => Scalar (f x)
  | Vector v => Vector (map f v)
  | Matrix m => Matrix (map (map f) m)
  end.

Definition jnp_exp : ndarray -> ndarray := map_nd exp.
Definition jnp_square : ndarray -> ndarray := map_nd (fun x => x * x).

Definition zip_with (f : R -> R -> R) (u v : list R) : list R :=
  map (fun p => f (fst p) (snd p)) (combine u v).

(** Broadcasting along one axis: equal lengths, or one side of List.length 1. *)
Definition broadcast_vec (f : R -> R -> R) (u v : list R) : result (list R) :=
  if (List.length u =? List.length v)%nat then Ok (zip_with f u v)
  else if (List.length u =? 1)%nat then Ok (map (f (hd 0 u)) v)
  else if (List.length v =? 1)%nat then Ok (map (fun x => f x (hd 0 v)) u)
  else Raise TypeError.

Fixpoint broadcast_rows (f : R -> R -> R) (m n : list (list R))
  : result (list (list R)) :=
  match m, n with
  | [], [] => Ok []
  | r :: m', s :: n' =>
      r' <- broadcast_vec f r s ;;
      rest <- broadcast_rows f m' n' ;;
      Ok (r' :: rest)
  | _, _ => Raise TypeError
  end.

(** Binary element-wise operators of [jax.numpy] with broadcasting.  Two
    matrices must have the same number of rows.  Shapes that do not
    broadcast are a [TypeError] of [jax.numpy]; between two arrays of
    NumPy the operator is NumPy's, which reports them as a [ValueError]:
    no statement of this development is about operands of [mean_function]
    that do not broadcast. *)
Definition binop (f : R -> R -> R) (a b : ndarray) : result ndarray :=
  match a, b with
  | Scalar x, Scalar y => Ok (Scalar (f x y))
  | Scalar x, Vector v => Ok (Vector (map (f x) v))
  | Vector u, Scalar y => Ok (Vector (map (fun x => f x y) u))
  | Vector u, Vector v => w <- broadcast_vec f u v ;; Ok (Vector w)
  | Scalar x, Matrix m => Ok (Matrix (map (map (f x)) m))
  | Matrix m, Scalar y => Ok (Matrix (map (map (fun x => f x y)) m))
  | Vector u, Matrix m =>
      rows <- mapM (fun r => broadcast_vec f u r) m ;; Ok (Matrix rows)
  | Matrix m, Vector v =>
      rows <- mapM (fun r => broadcast_vec f r v) m ;; Ok (Matrix rows)
  | Matrix m, Matrix n =>
      rows <- broadcast_rows f m n ;; Ok (Matrix rows)
  end.

Definition sub : ndarray -> ndarray -> result ndarray := binop Rminus.
Definition mul : ndarray -> ndarray -> result ndarray := binop Rmult.
Definition div : ndarray -> ndarray -> result ndarray := binop Rdiv.

(** [jnp.array] of a Python list stacks its elements, which must all have
    the shape of the first; otherwise [stack] raises
    [ValueError: All input arrays must have the same shape]. *)
Definition item (a : ndarray) : R :=
  match a with Scalar x => x | _ => 0 end.

Definition row (a : ndarray) : list R :=
  match a with Vector v => v | _ => [] end.

Definition jnp_array (l : list ndarray) : result ndarray :=
  match l with
  | [] => Ok (Vector [])
  | a :: _ =>
      if forallb (fun b => shape_eqb (shape b) (shape a)) l then
        match a with
        | Scalar _ => Ok (Vector (map item l))
        | Vector _ => Ok (Matrix (map row l))
        | Matrix _ => Raise Unmodelled
        end
      else Raise ValueError
  end.

Fixpoint dot (u v : list R) : R :=
  match u, v with
  | x :: u', y :: v' => x * y + dot u' v'
  | _, _ => 0
  end.

Definition ncols (m : list (list R)) : nat := List.length (hd [] m).

Definition col (j : nat) (m : list (list R)) : list R :=
  map (fun r => nth j r 0) m.

(** The operator [@].  An operand of rank 0 is refused with a
    [ValueError]; contracted lengths that differ are a [TypeError]. *)
Definition matmul (a b : ndarray) : result ndarray :=
  match a, b with
  | Scalar _, _ | _, Scalar _ => Raise ValueError
  | Vector u, Vector v =>
      if (List.length u =? List.length v)%nat then Ok (Scalar (dot u v))
      else Raise TypeError
  | Vector u, Matrix m =>
      if (List.length u =? List.length m)%nat
      then Ok (Vector (map (fun j => dot u (col j m)) (seq 0 (ncols m))))
      else Raise TypeError
  | Matrix m, Vector v =>
      if (ncols m =? List.length v)%nat then Ok (Vector (map (fun r => dot r v) m))
      else Raise TypeError
  | Matrix m, Matrix n =>
      if (ncols m =? List.length n)%nat
      then Ok (Matrix (map (fun r => map (fun j => dot r (col j n))
                                        (seq 0 (ncols n))) m))
      else Raise TypeError
  end.

(** Indexing the leading axis with one integer: a negative index counts
    from the end, and an index out of range is clamped into it (JAX does
    not raise there). *)
Definition clamp_index (n : nat) (i : Z) : nat :=
  let i' := if (i <? 0)%Z then (i + Z.of_nat n)%Z else i in
  Z.to_nat (Z.max 0 (Z.min i' (Z.of_nat n - 1))).

Definition getitem (a : ndarray) (i : Z) : result ndarray :=
  match a with
  | Scalar _ => Raise IndexError
  | Vector v =>
      match v with
      | [] => Raise IndexError
      | _ => Ok (Scalar (nth (clamp_index (List.length v) i) v 0))
      end
  | Matrix m =>
      match m with
      | [] => Raise IndexError
      | _ => Ok (Vector (nth (clamp_index (List.length m) i) m []))
      end
  end.

(** A Python dict with string keys, as a list of its items. *)
Definition dict : Type := list (string * ndarray).

Fixpoint dict_get (d : dict) (k : string) : result ndarray :=
  match d with
  | [] => Raise KeyError
  | (k', v) :: d' => if String.eqb k k' then Ok v else dict_get d' k
  end.

(** Stacking the results of a mapped function along a new leading axis;
    for an empty batch the shape is that of the traced result. *)
Definition stack (traced : ndarray) (ys : list ndarray) : result ndarray :=
  match ys with
  | [] =>
      match traced with
      | Scalar _ => Ok (Vector [])
      | Vector _ => Ok (Matrix [])
      | Matrix _ => Raise Unmodelled
      end
  | _ => jnp_array ys
  end.

(** [jax.vmap(f)(X)].  An argument of rank 0 has no axis to map over,
    which is a [ValueError].  Otherwise [f] is traced once, on an element
    of the shape of those along the leading axis of [X]: an error of [f]
    is raised there, also when the batch is empty.  The result holds [f]
    of every element, stacked along a new leading axis. *)
Definition vmap (f : ndarray -> result ndarray) (X : ndarray)
  : result ndarray :=
  match X with
  | Scalar _ => Raise ValueError
  | Vector v =>
      traced <- f (Scalar 0) ;;
      ys <- mapM (fun x => f (Scalar x)) v ;;
      stack traced ys
  | Matrix m =>
      traced <- f (Vector (repeat 0 (ncols m))) ;;
      ys <- mapM (fun r => f (Vector r)) m ;;
      stack traced ys
  end.

End Jnp.

(* ================================================================== *)
(** * The mean-function tutorial *)
(* ================================================================== *)

Module Means.

Import Py Jnp.
Local Open Scope R_scope.
Local Open Scope string_scope.

(** [def mean_function(params, X)] *)
Definition mean_function (params : dict) (X : ndarray) : result ndarray :=
  loc <- dict_get params "loc" ;;
  centred <- sub X loc ;;
  log_width <- dict_get params "log_width" ;;
  scaled <- div centred (jnp_exp log_width) ;;
  arg <- mul (Scalar (-0.5)) (jnp_square scaled) ;;
  let mod_ := jnp_exp arg in
  beta <- jnp_array [Scalar 1; mod_] ;;
  amps <- dict_get params "amps" ;;
  matmul amps beta.

(** [mean_params] of the tutorial; [np.log(0.5)] is [ln (1/2)]. *)
Definition mean_params : dict :=
  [ ("amps", Vector [0.1; 0.3]);
    ("loc", Scalar 5);
    ("log_width", Scalar (ln 0.5)) ].

(** The model [f(x) = b + a exp(-(x - l)^2 / (2 w^2))] of the tutorial's
    text, with [w = exp log_width], as a function of real numbers. *)
Definition gaussian_bump (b a l log_width x : R) : R :=
  b + a * exp (- (x - l) ^ 2 / (2 * exp log_width ^ 2)).

(** [jax.vmap(partial(mean_function, mean_params))(X_grid)] and
    [vmapped_mean_function = jax.vmap(mean_function, in_axes=(None, 0))]:
    [params] is not mapped over, the coordinates are. *)
Definition vmapped_mean_function (params : dict) (X : ndarray)
  : result ndarray :=
  vmap (mean_function params) X.

(** [params = dict(log_gp_amp=..., log_gp_scale=..., log_gp_diag=...,
    **mean_params)]: the parameters of the process, then those of the
    mean. *)
Definition gp_params : dict :=
  ([ ("log_gp_amp", Scalar (ln 0.1));
     ("log_gp_scale", Scalar (ln 3));
     ("log_gp_diag", Scalar (ln 0.03)) ] ++ mean_params)%list.

(** The keys [mean_function] reads. *)
Definition mean_keys : list string := ["loc"; "log_width"; "amps"].

End Means.

(* ================================================================== *)
(** * The custom quasiseparable kernels *)
(* ================================================================== *)

Module Quasisep.

Import Py Jnp.
Local Open Scope R_scope.

(** What the tutorial uses of a [tinygp.kernels.quasisep.Quasisep] kernel
    on scalar coordinates: its observation model at a coordinate and its
    design matrix.  [Wrapper] stores such a kernel in its field [kernel]. *)
Record kernel := {
  observation_model : R -> result ndarray;
  design_matrix : result ndarray
}.

(** [class Multiband(tinygp.kernels.quasisep.Wrapper)] *)
Module Multiband.

Record t := {
  kernel_ : kernel;
  amplitudes : ndarray
}.

Definition coord_to_sortable {T I : Type} (self : t) (X : T * I) : T :=
  fst X.

Definition observation_model (self : t) (X : R * Z) : result ndarray :=
  amp <- getitem (amplitudes self) (snd X) ;;
  obs <- Quasisep.observation_model (kernel_ self) (fst X) ;;
  mul amp obs.

End Multiband.

(** [class Latent(tinygp.kernels.quasisep.Wrapper)] *)
Module Latent.

Record t := {
  kernel_ : kernel;
  coeff_prim : ndarray;
  coeff_deriv : ndarray
}.

Definition coord_to_sortable {T I : Type} (self : t) (X : T * I) : T :=
  fst X.

Definition observation_model (self : t) (X : R * Z) : result ndarray :=
  let '(t, label) := X in
  design <- design_matrix (kernel_ self) ;;
  obs <- Quasisep.observation_model (kernel_ self) t ;;
  cp <- getitem (coeff_prim self) label ;;
  obs_prim <- mul cp obs ;;
  cd <- getitem (coeff_deriv self) label ;;
  scaled <- mul cd obs ;;
  obs_deriv <- matmul scaled design ;;
  sub obs_prim obs_deriv.

(** [Latent(kernel, coeff_prim=[1.0, 0.0], coeff_deriv=[0.0, 1.0])] of
    [plot_latent_samples]. *)
Definition value_and_derivative (k : kernel) : t :=
  {| kernel_ := k;
     coeff_prim := Vector [1; 0];
     coeff_deriv := Vector [0; 1] |}.

End Latent.

(** ** Examples *)

(** A kernel with three states whose observation model is the first unit
    vector, for examples. *)
Definition example_kernel : kernel := {|
  observation_model := fun _ => Ok (Vector [1; 0; 0]);
  design_matrix := Ok (Matrix [[0; 1; 0]; [0; 0; 1]; [0; 0; 0]])
|}.

(** The amplitudes of the tutorial's first [Multiband] kernel. *)
Definition example_multiband : Multiband.t := {|
  Multiband.kernel_ := example_kernel;
  Multiband.amplitudes := Vector [3.1; -1.1; 3.7]
|}.

End Quasisep.

(* ================================================================== *)
(** * The banded observation model of the quasiseparable tutorial *)
(* ================================================================== *)

Module Banded.

Import Py.
Local Open Scope R_scope.

(** ** NumPy and Python operations the cell uses *)

(** The bound of a slice [a[:k]] or [a[k:]] on a sequence of length [n]:
    a negative bound counts from the end, and both are clipped. *)
Definition slice_bound (n : nat) (k : Z) : nat :=
  Z.to_nat (if (k <? 0)%Z then Z.max 0 (k + Z.of_nat n)
            else Z.min k (Z.of_nat n)).

(** [a[:k]] *)
Definition take {A} (k : Z) (a : list A) : list A :=
  firstn (slice_bound (List.length a) k) a.

(** [a[k:]] *)
Definition drop {A} (k : Z) (a : list A) : list A :=
  skipn (slice_bound (List.length a) k) a.

(** One integer index into an axis of length [n]: negative indices count
    from the end, and an index out of range raises [IndexError]. *)
Definition index (n : nat) (i : Z) : result nat :=
  if ((0 <=? i) && (i <? Z.of_nat n))%Z then Ok (Z.to_nat i)
  else if ((- Z.of_nat n <=? i) && (i <? 0))%Z then Ok (Z.to_nat (i + Z.of_nat n))
  else Raise IndexError.

(** [collections.Counter]: the distinct values in order of first
    occurrence, each with its number of occurrences. *)
Fixpoint counter_add (x : Z) (c : list (Z * nat)) : list (Z * nat) :=
  match c with
  | [] => [(x, 1%nat)]
  | (y, n) :: c' =>
      if (x =? y)%Z then (y, S n) :: c' else (y, n) :: counter_add x c'
  end.

Definition Counter (l : list Z) : list (Z * nat) :=
  fold_left (fun c x => counter_add x c) l [].

Definition values (c : list (Z * nat)) : list Z :=
  map (fun p => Z.of_nat (snd p)) c.

(** [max] of an iterable raises [ValueError] when it is empty. *)
Definition py_max (l : list Z) : result Z :=
  match l with
  | [] => Raise ValueError
  | x :: l' => Ok (fold_left Z.max l' x)
  end.

(** [range(n)] *)
Definition range (n : Z) : list Z :=
  map Z.of_nat (seq 0 (Z.to_nat n)).

(** A float array of rank 2: its second dimension and its rows. *)
Record array2 := {
  ncols : nat;
  rows : list (list R)
}.

(** [a[i, j]] for indices in range. *)
Definition entry (a : array2) (i j : nat) : R :=
  nth j (nth i (rows a) []) 0.

(** [np.zeros((n, m))] *)
Definition zeros (n m : Z) : result array2 :=
  if ((n <? 0) || (m <? 0))%Z then Raise ValueError
  else Ok {| ncols := Z.to_nat m;
             rows := repeat (repeat 0 (Z.to_nat m)) (Z.to_nat n) |}.

(** [a == b] on integer arrays of rank 1, with broadcasting of a side of
    length 1. *)
Definition array_eq (a b : list Z) : result (list bool) :=
  if (List.length a =? List.length b)%nat
  then Ok (map (fun p => (fst p =? snd p)%Z) (combine a b))
  else if (List.length a =? 1)%nat then Ok (map (Z.eqb (hd 0%Z a)) b)
  else if (List.length b =? 1)%nat then Ok (map (fun x => (x =? hd 0%Z b)%Z) a)
  else Raise ValueError.

(** [a[m]] for a boolean mask [m], which must have the length of [a]. *)
Fixpoint select {A} (a : list A) (m : list bool) : list A :=
  match a, m with
  | x :: a', b :: m' => if b then x :: select a' m' else select a' m'
  | _, _ => []
  end.

Definition mask_select {A} (a : list A) (m : list bool) : result (list A) :=
  if (List.length a =? List.length m)%nat then Ok (select a m)
  else Raise IndexError.

(** [a[idx]] for an integer array [idx]. *)
Definition fancy_index (a : list R) (idx : list Z) : result (list R) :=
  mapM (fun i => k <- index (List.length a) i ;; Ok (nth k a 0)) idx.

(** [a ** 2] *)
Definition square (a : list R) : list R := map (fun x => x ^ 2) a.

Definition count_true (m : list bool) : nat :=
  List.length (filter (fun b => b) m).

(** The elements of [view] under the mask are overwritten by [vals] in
    order. *)
Fixpoint put_mask (view : list R) (m : list bool) (vals : list R) : list R :=
  match view, m with
  | x :: view', b :: m' =>
      if b then
        match vals with
        | v :: vals' => v :: put_mask view' m' vals'
        | [] => x :: put_mask view' m' []
        end
      else x :: put_mask view' m' vals
  | _, _ => view
  end.

Fixpoint set_nth (j : nat) (x : R) (r : list R) : list R :=
  match r, j with
  | [], _ => []
  | _ :: r', O => x :: r'
  | y :: r', S j' => y :: set_nth j' x r'
  end.

Definition column (j : nat) (rs : list (list R)) : list R :=
  map (fun r => nth j r 0) rs.

Fixpoint set_column (j : nat) (c : list R) (rs : list (list R))
  : list (list R) :=
  match rs, c with
  | r :: rs', x :: c' => set_nth j x r :: set_column j c' rs'
  | _, _ => rs
  end.

(** [a[:k, j][m] = vals]: [a[:k, j]] is a view of column [j] in the first
    rows, so the masked assignment writes into [a].  [vals] must have one
    value per [True] of the mask, or a single value. *)
Definition setitem_column_mask (a : array2) (k j : Z) (m : list bool)
    (vals : list R) : result array2 :=
  jn <- index (ncols a) j ;;
  let top := take k (rows a) in
  let view := column jn top in
  if negb (List.length m =? List.length view)%nat then Raise IndexError
  else
    let n := count_true m in
    if (List.length vals =? n)%nat then
      Ok {| ncols := ncols a;
            rows := set_column jn (put_mask view m vals) top
                    ++ drop k (rows a) |}
    else if (List.length vals =? 1)%nat then
      Ok {| ncols := ncols a;
            rows := set_column jn (put_mask view m (repeat (hd 0 vals) n)) top
                    ++ drop k (rows a) |}
    else Raise ValueError.

Fixpoint for_each {S A} (body : S -> A -> result S) (l : list A) (s : S)
  : result S :=
  match l with
  | [] => Ok s
  | x :: l' => s' <- body s x ;; for_each body l' s'
  end.

(** ** The cell *)

(** [bandwidth = max(Counter(calib_id).values()) - 1] *)
Definition bandwidth (calib_id : list Z) : result Z :=
  m <- py_max (values (Counter calib_id)) ;;
  Ok (m - 1)%Z.

(** The body of [for j in range(bandwidth)]. *)
Definition loop_body (nt : Z) (calib_id : list Z) (caliberr : list R)
    (off_diags : array2) (j : Z) : result array2 :=
  m <- array_eq (take (nt - j - 1) calib_id) (drop (j + 1) calib_id) ;;
  sel <- mask_select (take (nt - j - 1) calib_id) m ;;
  err <- fancy_index caliberr sel ;;
  setitem_column_mask off_diags (nt - j - 1) j m (square err).

Definition off_diags (nt : Z) (calib_id : list Z) (caliberr : list R)
  : result array2 :=
  bw <- bandwidth calib_id ;;
  z <- zeros nt bw ;;
  for_each (loop_body nt calib_id caliberr) (range bw) z.

(** What the claim says of entry [(i, j)]. *)
Definition coupling (calib_id : list Z) (caliberr : list R) (i j : nat) : R :=
  if (i + j + 1 <? List.length calib_id)%nat
     && (nth i calib_id 0 =? nth (i + j + 1) calib_id 0)%Z
  then nth (Z.to_nat (nth i calib_id 0%Z)) caliberr 0 ^ 2
  else 0.

(** ** Notions for the proofs *)

(** The number of items a [Counter] has counted. *)
Definition total (c : list (Z * nat)) : nat :=
  fold_right (fun p s => (snd p + s)%nat) 0%nat c.

(** [c] is a non-negative index into an axis of length [n]. *)
Definition in_range (n : nat) (c : Z) : Prop := (0 <= c < Z.of_nat n)%Z.

(** The loop invariant, after the columns before [k] are written: the
    array is [len(calib_id)] by [bw], those columns hold the couplings and
    the others are still zero. *)
Definition written (calib_id : list Z) (caliberr : list R) (bw k : nat)
    (a : array2) : Prop :=
  ncols a = bw
  /\ List.length (rows a) = List.length calib_id
  /\ Forall (fun r => List.length r = bw) (rows a)
  /\ forall i j, (i < List.length calib_id)%nat -> (j < bw)%nat ->
       entry a i j = if (j <? k)%nat then coupling calib_id caliberr i j else 0.

(** [c[x]] for a [Counter]: the count of [x], 0 when [x] was not
    counted. *)
Fixpoint counter_get (c : list (Z * nat)) (x : Z) : nat :=
  match c with
  | [] => 0%nat
  | (y, n) :: c' => if (x =? y)%Z then n else counter_get c' x
  end.

(** The number of observations of calibration [x]. *)
Definition multiplicity (calib_id : list Z) (x : Z) : nat :=
  count_occ Z.eq_dec calib_id x.

End Banded.

(* ================================================================== *)
(** * The simulated data of the quasiseparable tutorial *)
(* ================================================================== *)

Module Data.

Import Py Banded.
Local Open Scope R_scope.

(** ** NumPy operations *)

(** A binary operator on arrays of rank 1, with broadcasting of a side
    of length 1.  Lengths that do not broadcast raise [mismatch]. *)
Definition broadcast_binop {A B C} (mismatch : exn) (f : A -> B -> C)
    (da : A) (db : B) (a : list A) (b : list B) : result (list C) :=
  if (List.length a =? List.length b)%nat
  then Ok (map (fun p => f (fst p) (snd p)) (combine a b))
  else if (List.length a =? 1)%nat then Ok (map (f (hd da a)) b)
  else if (List.length b =? 1)%nat then Ok (map (fun x => f x (hd db b)) a)
  else Raise mismatch.

(** Between two arrays of NumPy the error is NumPy's [ValueError]. *)
Definition np_binop {A B C} (f : A -> B -> C) (da : A) (db : B)
    (a : list A) (b : list B) : result (list C) :=
  broadcast_binop ValueError f da db a b.

(** When one of the two is an array of JAX the operator is that of
    [jax.numpy], and the error its [TypeError]. *)
Definition jnp_binop {A B C} (f : A -> B -> C) (da : A) (db : B)
    (a : list A) (b : list B) : result (list C) :=
  broadcast_binop TypeError f da db a b.

Definition Rltb (x y : R) : bool := if Rlt_dec x y then true else false.

(** [np.sort] of an array of rank 1. *)
Fixpoint insert (x : R) (l : list R) : list R :=
  match l with
  | [] => [x]
  | y :: l' => if Rle_dec x y then x :: l else y :: insert x l'
  end.

Definition np_sort (l : list R) : list R := fold_right insert [] l.

(** What [random.uniform(lo, hi, size)] returns: [size] numbers from
    [lo] to [hi].  The generator computes [lo + (hi - lo) * u] with
    [0 <= u < 1], and rounding can make that [hi] itself.  The numbers
    themselves are inputs of this development. *)
Definition uniform_draw (lo hi : R) (size : Z) (l : list R) : Prop :=
  (0 <= size)%Z
  /\ List.length l = Z.to_nat size
  /\ Forall (fun x => lo <= x <= hi) l.

(** ** Observations of the two classes *)

(** [subset = (1 + 2 * label) * random.uniform(0, 1, len(t)) < 0.3],
    [u] being the draw. *)
Definition subset (label : list Z) (u : list R) : result (list bool) :=
  w <- np_binop (fun l x => (1 + 2 * IZR l) * x) 0%Z 0 label u ;;
  Ok (map (fun x => Rltb x 0.3) w).

(** [X_obs = (X[0][subset], X[1][subset])] *)
Definition X_obs (X : list R * list Z) (subset : list bool)
  : result (list R * list Z) :=
  t_obs <- mask_select (fst X) subset ;;
  label_obs <- mask_select (snd X) subset ;;
  Ok (t_obs, label_obs).

(** [y_obs = y[subset] + 0.1 * random.normal(size=subset.sum())],
    [noise] being the draw.  [y] is the sample of the process, an array
    of JAX. *)
Definition y_obs (y : list R) (subset : list bool) (noise : list R)
  : result (list R) :=
  ys <- mask_select y subset ;;
  jnp_binop Rplus 0 0 ys (map (Rmult 0.1) noise).

(** ** Calibrated observations *)

Definition tmax : R := 20.

(** The sizes [nt // 2] and [(nt + 1) // 2] of the two draws of times. *)
Definition sizes (nt : Z) : Z * Z := ((nt / 2)%Z, ((nt + 1) / 2)%Z).

(** [t = np.sort(np.concatenate((first, second)))] *)
Definition times (first second : list R) : list R :=
  np_sort (first ++ second).

(** [astype(int)] of a whole number: the conversion to a signed integer
    of 64 bits, which answers [-2^63] for a number it cannot hold. *)
Definition astype_int (z : Z) : Z :=
  if ((- 2 ^ 63 <=? z) && (z <? 2 ^ 63))%Z then z else (- 2 ^ 63)%Z.

(** [calib_id = (t // 1).astype(int)] *)
Definition calib_id (t : list R) : list Z :=
  map (fun x => astype_int (Zfloor x)) t.

(** [a[-1]] *)
Definition last_item (a : list Z) : result Z :=
  k <- index (List.length a) (-1) ;; Ok (nth k a 0%Z).

(** The size [calib_id[-1] + 1] of the draw of [caliberr]. *)
Definition caliberr_size (calib_id : list Z) : result Z :=
  c <- last_item calib_id ;; Ok (c + 1)%Z.

End Data.

(* ================================================================== *)
(** * jax.numpy arrays of binary64 numbers *)
(* ================================================================== *)

(** The arrays of [Jnp] once more, with entries of type [float]: the
    binary64 numbers of IEEE 754 with infinities, signed zeros and NaN,
    and correctly rounded [+], [-], [*] and [/].  The tutorials enable
    [jax_enable_x64], so this is the arithmetic their arrays use. *)
Module F64.

Import Py.
Local Open Scope string_scope.
Local Open Scope float_scope.

#[local] Set Warnings "-inexact-float".

Inductive ndarray :=
| Scalar (x : float)
| Vector (v : list float)
| Matrix (m : list (list float)).

Definition shape (a : ndarray) : list nat :=
  match a with
  | Scalar _ => []
  | Vector v => [List.length v]
  | Matrix m => [List.length m; List.length (hd [] m)]
  end.

Definition map_nd (f : float -> float) (a : ndarray) : ndarray :=
  match a with
  | Scalar x => Scalar (f x)
  | Vector v => Vector (map f v)
  | Matrix m => Matrix (map (map f) m)
  end.

(** [jnp.square] multiplies a number by itself. *)
Definition jnp_square : ndarray -> ndarray := map_nd (fun x => x * x).

Definition zip_with (f : float -> float -> float) (u v : list float)
  : list float :=
  map (fun p => f (fst p) (snd p)) (combine u v).

Definition broadcast_vec (f : float -> float -> float) (u v : list float)
  : result (list float) :=
  if (List.length u =? List.length v)%nat then Ok (zip_with f u v)
  else if (List.length u =? 1)%nat then Ok (map (f (hd 0 u)) v)
  else if (List.length v =? 1)%nat then Ok (map (fun x => f x (hd 0 v)) u)
  else Raise TypeError.

Fixpoint broadcast_rows (f : float -> float -> float)
    (m n : list (list float)) : result (list (list float)) :=
  match m, n with
  | [], [] => Ok []
  | r :: m', s :: n' =>
      r' <- broadcast_vec f r s ;;
      rest <- broadcast_rows f m' n' ;;
      Ok (r' :: rest)
  | _, _ => Raise TypeError
  end.

Definition binop (f : float -> float -> float) (a b : ndarray)
  : result ndarray :=
  match a, b with
  | Scalar x, Scalar y => Ok (Scalar (f x y))
  | Scalar x, Vector v => Ok (Vector (map (f x) v))
  | Vector u, Scalar y => Ok (Vector (map (fun x => f x y) u))
  | Vector u, Vector v => w <- broadcast_vec f u v ;; Ok (Vector w)
  | Scalar x, Matrix m => Ok (Matrix (map (map (f x)) m))
  | Matrix m, Scalar y => Ok (Matrix (map (map (fun x => f x y)) m))
  | Vector u, Matrix m =>
      rows <- mapM (fun r => broadcast_vec f u r) m ;; Ok (Matrix rows)
  | Matrix m, Vector v =>
      rows <- mapM (fun r => broadcast_vec f r v) m ;; Ok (Matrix rows)
  | Matrix m, Matrix n =>
      rows <- broadcast_rows f m n ;; Ok (Matrix rows)
  end.

Definition sub : ndarray -> ndarray -> result ndarray := binop PrimFloat.sub.
Definition mul : ndarray -> ndarray -> result ndarray := binop PrimFloat.mul.
Definition div : ndarray -> ndarray -> result ndarray := binop PrimFloat.div.

Definition item (a : ndarray) : float :=
  match a with Scalar x => x | _ => 0 end.

Definition row (a : ndarray) : list float :=
  match a with Vector v => v | _ => [] end.

Definition jnp_array (l : list ndarray) : result ndarray :=
  match l with
  | [] => Ok (Vector [])
  | a :: _ =>
      if forallb (fun b => Jnp.shape_eqb (shape b) (shape a)) l then
        match a with
        | Scalar _ => Ok (Vector (map item l))
        | Vector _ => Ok (Matrix (map row l))
        | Matrix _ => Raise Unmodelled
        end
      else Raise ValueError
  end.

(** The sum of the products, each product and each partial sum rounded,
    accumulated from the first element on. *)
Definition dot (u v : list float) : float :=
  fold_left (fun acc p => acc + fst p * snd p) (combine u v) 0.

Definition ncols (m : list (list float)) : nat := List.length (hd [] m).

Definition col (j : nat) (m : list (list float)) : list float :=
  map (fun r => nth j r 0) m.

Definition matmul (a b : ndarray) : result ndarray :=
  match a, b with
  | Scalar _, _ | _, Scalar _ => Raise ValueError
  | Vector u, Vector v =>
      if (List.length u =? List.length v)%nat then Ok (Scalar (dot u v))
      else Raise TypeError
  | Vector u, Matrix m =>
      if (List.length u =? List.length m)%nat
      then Ok (Vector (map (fun j => dot u (col j m)) (seq 0 (ncols m))))
      else Raise TypeError
  | Matrix m, Vector v =>
      if (ncols m =? List.length v)%nat then Ok (Vector (map (fun r => dot r v) m))
      else Raise TypeError
  | Matrix m, Matrix n =>
      if (ncols m =? List.length n)%nat
      then Ok (Matrix (map (fun r => map (fun j => dot r (col j n))
                                        (seq 0 (ncols n))) m))
      else Raise TypeError
  end.

Definition getitem (a : ndarray) (i : Z) : result ndarray :=
  match a with
  | Scalar _ => Raise IndexError
  | Vector v =>
      match v with
      | [] => Raise IndexError
      | _ => Ok (Scalar (nth (Jnp.clamp_index (List.length v) i) v 0))
      end
  | Matrix m =>
      match m with
      | [] => Raise IndexError
      | _ => Ok (Vector (nth (Jnp.clamp_index (List.length m) i) m []))
      end
  end.

Definition dict : Type := list (string * ndarray).

Fixpoint dict_get (d : dict) (k : string) : result ndarray :=
  match d with
  | [] => Raise KeyError
  | (k', v) :: d' => if String.eqb k k' then Ok v else dict_get d' k
  end.

(** ** The mean function *)

(** [jnp.exp] on one binary64 number is the library's.  What the
    standard fixes of it, and every implementation returns: 1 at a zero
    of either sign, infinity from 710 on (the largest binary64 number is
    below [e^710]), and NaN at NaN. *)
Record ieee_exp (exp64 : float -> float) : Prop := {
  exp_zero : forall x, (x =? 0) = true -> exp64 x = 1;
  exp_overflow : forall x, (710 <=? x) = true -> exp64 x = infinity;
  exp_nan : exp64 nan = nan
}.

Section Exp.

Variable exp64 : float -> float.

Definition jnp_exp : ndarray -> ndarray := map_nd exp64.

(** [def mean_function(params, X)] *)
Definition mean_function (params : dict) (X : ndarray) : result ndarray :=
  loc <- dict_get params "loc" ;;
  centred <- sub X loc ;;
  log_width <- dict_get params "log_width" ;;
  scaled <- div centred (jnp_exp log_width) ;;
  arg <- mul (Scalar (-0.5)) (jnp_square scaled) ;;
  let mod_ := jnp_exp arg in
  beta <- jnp_array [Scalar 1; mod_] ;;
  amps <- dict_get params "amps" ;;
  matmul amps beta.

(** The formula [b + a exp(-(x - l)^2 / (2 exp(log_width)^2))] evaluated
    in binary64, a square being a number times itself. *)
Definition gaussian_bump (b a l log_width x : float) : float :=
  b + a * exp64 (- ((x - l) * (x - l))
                 / (2 * (exp64 log_width * exp64 log_width))).

End Exp.

(** The amplitudes of [mean_params], with a location of 0 and a width so
    large that its exponential is infinite. *)
Definition wide_params : dict :=
  [ ("amps", Vector [0.1; 0.3]);
    ("loc", Scalar 0);
    ("log_width", Scalar 800) ].

(** ** The multiband kernel *)

Record kernel := {
  observation_model : float -> result ndarray
}.

(** [class Multiband(tinygp.kernels.quasisep.Wrapper)] *)
Module Multiband.

Record t := {
  kernel_ : kernel;
  amplitudes : ndarray
}.

Definition coord_to_sortable {T I : Type} (self : t) (X : T * I) : T :=
  fst X.

Definition observation_model (self : t) (X : float * Z) : result ndarray :=
  amp <- getitem (amplitudes self) (snd X) ;;
  obs <- F64.observation_model (kernel_ self) (fst X) ;;
  mul amp obs.


End Multiband.

(** A kernel with two states that observes 0.7 times the first. *)
Definition scaled_kernel : kernel :=
  {| observation_model := fun _ => Ok (Vector [0.7; 0]) |}.

(** The amplitudes of the tutorial's first [Multiband] kernel. *)
Definition example_multiband : Multiband.t := {|
  Multiband.kernel_ := scaled_kernel;
  Multiband.amplitudes := Vector [3.1; -1.1; 3.7]
|}.

End F64.

(* ================================================================== *)
(** * The statements of the notebooks' code cells *)
(* ================================================================== *)

Module Notebooks.

Local Open Scope string_scope.
Local Open Scope list_scope.

#[local] Set Warnings "-register-all".

(** ** Syntax *)

(** [import m as n] and [from m import a as n]. *)
Definition alias : Type := string * option string.

(** The statements of a code cell, after Python's [ast].  Expressions are
    kept as the dotted names of the functions they call, in source order
    ([f()] stands for the result of a call, [a[]] for a subscript and
    [(...)] for any other expression); targets, decorators, bases and
    annotations are kept as dotted names.  [Magic] is an IPython line
    magic ([%pip ...]). *)
Inductive stmt :=
| Import (names : list alias)
| ImportFrom (module : string) (names : list alias)
| Magic (line : string)
| Assign (targets : list string) (calls : list string)
| AugAssign (target : string) (calls : list string)
| AnnAssign (target : string) (annotation : string)
| Expr (calls : list string)
| Return (calls : list string)
| FunctionDef (name : string) (decorators : list string) (args : list string)
    (body : list stmt)
| ClassDef (name : string) (decorators : list string) (bases : list string)
    (body : list stmt)
| For (target : list string) (calls : list string) (body : list stmt)
| While (calls : list string) (body : list stmt)
| If (calls : list string) (body : list stmt) (orelse : list stmt)
| With (calls : list string) (body : list stmt)
| Try (body : list stmt) (handlers : list handler) (orelse : list stmt)
    (finalbody : list stmt)
| Raise (calls : list string)
| Assert (calls : list string)
with handler :=
| ExceptHandler (type_ : string) (body : list stmt).

Inductive cell :=
| markdown
| code (tags : list string) (source : list stmt).

Definition notebook : Type := list cell.

(** ** Traversal *)

(** A statement with every statement nested in it, in source order. *)
Fixpoint flatten (s : stmt) : list stmt :=
  let fix block (l : list stmt) : list stmt :=
    match l with
    | [] => []
    | x :: l' => flatten x ++ block l'
    end in
  s ::
  match s with
  | FunctionDef _ _ _ b | ClassDef _ _ _ b | For _ _ b | While _ b
  | With _ b => block b
  | If _ b o => block b ++ block o
  | Try b hs o f =>
      block b
      ++ (fix handlers (l : list handler) : list stmt :=
            match l with
            | [] => []
            | ExceptHandler _ hb :: l' => block hb ++ handlers l'
            end) hs
      ++ block o ++ block f
  | _ => []
  end.

Definition statements (body : list stmt) : list stmt :=
  flat_map flatten body.

Definition cell_statements (c : cell) : list stmt :=
  match c with
  | markdown => []
  | code _ body => statements body
  end.

(** ** Error handling *)

(** The statements with which Python code handles or signals an error. *)
Definition is_error_handling (s : stmt) : bool :=
  match s with
  | Try _ _ _ _ | Raise _ | Assert _ => true
  | _ => false
  end.

(** The statements that branch or loop on a condition, with which a retry
    or an error branch would be written. *)
Definition is_conditional (s : stmt) : bool :=
  match s with
  | If _ _ _ | While _ _ => true
  | _ => false
  end.

Definition has_error_handling (c : cell) : bool :=
  existsb is_error_handling (cell_statements c).

(** [%pip ...] *)
Definition pip_magic (s : stmt) : bool :=
  match s with
  | Magic line => String.prefix "pip " line
  | _ => false
  end.

(** [try: import m] / [except ImportError: %pip ...] *)
Definition import_guard (s : stmt) : bool :=
  match s with
  | Try [Import [_]] [ExceptHandler "ImportError" h] [] [] => forallb pip_magic h
  | _ => false
  end.

(** ** Classes and functions *)

Definition is_kernel_base (b : string) : bool :=
  String.prefix "tinygp.kernels." b.

(** A kernel class derives from a class of [tinygp.kernels]. *)
Definition is_kernel_class (s : stmt) : bool :=
  match s with
  | ClassDef _ _ bases _ => existsb is_kernel_base bases
  | _ => false
  end.

Definition class_name (s : stmt) : option string :=
  match s with
  | ClassDef n _ _ _ => Some n
  | _ => None
  end.

Definition class_bases (s : stmt) : list string :=
  match s with
  | ClassDef _ _ bases _ => bases
  | _ => []
  end.

(** The names of the functions defined directly in a body. *)
Fixpoint defs (body : list stmt) : list string :=
  match body with
  | [] => []
  | FunctionDef n _ _ _ :: l => n :: defs l
  | _ :: l => defs l
  end.

Definition methods (s : stmt) : list string :=
  match s with
  | ClassDef _ _ _ body => defs body
  | _ => []
  end.

(** The functions a statement calls: its own expressions only. *)
Definition own_calls (s : stmt) : list string :=
  match s with
  | Assign _ c | AugAssign _ c | Expr c | Return c | For _ c _ | While c _
  | If c _ _ | With c _ | Raise c | Assert c => c
  | _ => []
  end.

(** The functions called anywhere in a class or function. *)
Definition calls_in (s : stmt) : list string :=
  flat_map own_calls (flatten s).

(** Every class or function defined at any depth of a body, as
    [Class.method] when it is nested in a class or function. *)
Fixpoint definitions (s : stmt) : list string :=
  let fix block (l : list stmt) : list string :=
    match l with
    | [] => []
    | x :: l' => definitions x ++ block l'
    end in
  match s with
  | FunctionDef n _ _ b | ClassDef n _ _ b =>
      n :: map (fun m => (n ++ "." ++ m)%string) (block b)
  | For _ _ b | While _ b | With _ b => block b
  | If _ b o => block b ++ block o
  | Try b hs o f =>
      block b
      ++ (fix handlers (l : list handler) : list string :=
            match l with
            | [] => []
            | ExceptHandler _ hb :: l' => block hb ++ handlers l'
            end) hs
      ++ block o ++ block f
  | _ => []
  end.

Definition cell_definitions (c : cell) : list string :=
  match c with
  | markdown => []
  | code _ body => flat_map definitions body
  end.

(** ** The notebooks *)

Definition means : notebook :=
[
  (* 0 *) code ["hide-cell"]
      [ Try [ Import [("tinygp", None)] ]
          [ExceptHandler "ImportError" [ Magic "pip install -q tinygp" ]] [] [];
        Try [ Import [("jaxopt", None)] ]
          [ExceptHandler "ImportError" [ Magic "pip install -q jaxopt" ]] [] [] ];
  (* 1 *) markdown;
  (* 2 *) code []
      [ ImportFrom "functools" [("partial", None)];
        Import [("numpy", Some "np")];
        Import [("matplotlib.pyplot", Some "plt")];
        Import [("jax", None)];
        Import [("jax.numpy", Some "jnp")];
        Expr ["jax.config.update"];
        FunctionDef "mean_function" [] ["params"; "X"]
          [ Assign ["mod"] ["jnp.exp"; "jnp.square"; "jnp.exp"];
            Assign ["beta"] ["jnp.array"];
            Return [] ];
        Assign ["mean_params"] ["np.array"; "np.log"];
        Assign ["X_grid"] ["np.linspace"];
        Assign ["model"] ["jax.vmap"; "jax.vmap()"; "partial"];
        Expr ["plt.plot"];
        Expr ["plt.xlabel"];
        Expr ["plt.ylabel"];
        Assign ["_"] ["plt.title"] ];
  (* 3 *) markdown;
  (* 4 *) code ["raises-exception"]
      [ Assign ["model"] ["mean_function"] ];
  (* 5 *) markdown;
  (* 6 *) code []
      [ Assign ["model"] ["jax.vmap"; "jax.vmap()"; "partial"] ];
  (* 7 *) markdown;
  (* 8 *) code []
      [ Assign ["random"] ["np.random.default_rng"];
        Assign ["X"] ["np.sort"; "random.uniform"];
        Assign ["y"] ["jax.vmap"; "jax.vmap()"; "partial"];
        AugAssign "y" ["np.sin"];
        AugAssign "y" ["random.normal"; "len"];
        Expr ["plt.plot"];
        Expr ["plt.xlabel"];
        Expr ["plt.ylabel"];
        Assign ["_"] ["plt.title"] ];
  (* 9 *) markdown;
  (* 10 *) code []
      [ ImportFrom "tinygp" [("kernels", None); ("GaussianProcess", None)];
        FunctionDef "build_gp" [] ["params"]
          [ Assign ["kernel"] ["jnp.exp"; "kernels.Matern52"; "jnp.exp"];
            Return ["GaussianProcess"; "jnp.exp"; "partial"] ];
        FunctionDef "loss" ["jax.jit"] ["params"]
          [ Assign ["gp"] ["build_gp"];
            Return ["gp.log_probability"] ];
        Assign ["params"] ["dict"; "np.log"; "np.log"; "np.log"];
        Expr ["loss"] ];
  (* 11 *) markdown;
  (* 12 *) code []
      [ Import [("jaxopt", None)];
        Assign ["solver"] ["jaxopt.ScipyMinimize"];
        Assign ["soln"] ["solver.run"; "jax.tree_map"];
        Expr ["print"] ];
  (* 13 *) markdown;
  (* 14 *) code []
      [ Assign ["gp"] ["build_gp"];
        Assign ["_"; "cond"] ["gp.condition"];
        Assign ["mu"] [];
        Assign ["std"] ["np.sqrt"];
        Expr ["plt.plot"];
        Expr ["plt.plot"];
        Expr ["plt.fill_between"];
        Expr ["plt.xlim"; "X_grid.min"; "X_grid.max"];
        Expr ["plt.xlabel"];
        Expr ["plt.ylabel"];
        Assign ["_"] ["plt.legend"] ];
  (* 15 *) markdown;
  (* 16 *) code []
      [ Assign ["gp"] ["build_gp"];
        Assign ["_"; "cond"] ["gp.condition"];
        Assign ["mu"] [];
        Assign ["std"] ["np.sqrt"];
        Expr ["plt.plot"];
        Expr ["plt.plot"];
        Expr ["plt.fill_between"];
        Expr ["plt.plot"; "jax.vmap"; "jax.vmap()"];
        Expr ["plt.xlim"; "X_grid.min"; "X_grid.max"];
        Expr ["plt.xlabel"];
        Expr ["plt.ylabel"];
        Assign ["_"] ["plt.legend"] ];
  (* 17 *) markdown;
  (* 18 *) code []
      [ Assign ["vmapped_mean_function"] ["jax.vmap"];
        FunctionDef "build_gp_v2" [] ["params"]
          [ Assign ["kernel"] ["jnp.exp"; "kernels.Matern52"; "jnp.exp"];
            Return ["GaussianProcess"; "jnp.exp"] ];
        FunctionDef "loss_v2" ["jax.jit"] ["params"]
          [ Assign ["gp"] ["build_gp_v2"];
            Return ["gp.log_probability"; "vmapped_mean_function"] ];
        Expr ["loss_v2"] ];
  (* 19 *) markdown;
  (* 20 *) code []
      []
].

Definition intro : notebook :=
[
  (* 0 *) code ["hide-cell"]
      [ Try [ Import [("tinygp", None)] ]
          [ExceptHandler "ImportError" [ Magic "pip install -q tinygp" ]] [] [] ];
  (* 1 *) markdown;
  (* 2 *) code []
      [ Import [("jax", None)];
        Expr ["jax.config.update"] ];
  (* 3 *) markdown;
  (* 4 *) code []
      [ ImportFrom "tinygp" [("kernels", None)];
        Assign ["kernel"] ["kernels.ExpSquared"] ];
  (* 5 *) markdown;
  (* 6 *) code []
      [ Import [("numpy", Some "np")];
        Import [("matplotlib.pyplot", Some "plt")];
        FunctionDef "plot_kernel" [] ["kernel"; "**kwargs"]
          [ Assign ["dx"] ["np.linspace"];
            Expr ["plt.plot"; "kernel"];
            Expr ["plt.xlabel"];
            Expr ["plt.ylabel"] ];
        Expr ["plot_kernel"] ];
  (* 7 *) markdown;
  (* 8 *) code []
      [ Expr ["plot_kernel"];
        Assign ["kernel_scaled"] ["kernels.ExpSquared"];
        Expr ["plot_kernel"];
        Assign ["kernel_sum"] ["kernels.ExpSquared"; "kernels.Matern32"];
        Expr ["plot_kernel"];
        Assign ["kernel_prod"] ["kernels.ExpSquared"; "kernels.Cosine"];
        Expr ["plot_kernel"];
        Assign ["_"] ["plt.legend"] ];
  (* 9 *) markdown;
  (* 10 *) code []
      [ ImportFrom "tinygp" [("GaussianProcess", None)];
        Assign ["X"] ["np.sort"; "np.random.default_rng";
              "np.random.default_rng().uniform"];
        Assign ["gp"] ["GaussianProcess"] ];
  (* 11 *) markdown;
  (* 12 *) code []
      [ Assign ["y"] ["gp.sample"; "jax.random.PRNGKey"];
        Expr ["plt.plot"];
        Expr ["plt.xlabel"];
        Expr ["plt.ylabel"];
        Assign ["_"] ["plt.title"] ];
  (* 13 *) markdown;
  (* 14 *) code []
      [ Assign ["kernel_prod"] ["kernels.ExpSquared"; "kernels.Cosine"];
        Assign ["gp"] ["GaussianProcess"];
        Assign ["y"] ["gp.sample"; "jax.random.PRNGKey"];
        Expr ["plt.plot"];
        Expr ["plt.xlabel"];
        Expr ["plt.ylabel"];
        Assign ["_"] ["plt.title"] ];
  (* 15 *) markdown;
  (* 16 *) code []
      [ Assign ["gp"] ["GaussianProcess"];
        Assign ["y_const"] ["gp.sample"; "jax.random.PRNGKey"];
        FunctionDef "mean_function" [] ["x"]
          [ Return ["jax.numpy.sin"] ];
        Assign ["gp"] ["GaussianProcess"];
        Assign ["y_func"] ["gp.sample"; "jax.random.PRNGKey"];
        Assign ["_"; "axes"] ["plt.subplots"];
        Assign ["ax"] [];
        Expr ["ax.plot"];
        Expr ["ax.axhline"];
        Expr ["ax.set_ylabel"];
        Assign ["ax"] [];
        Expr ["ax.plot"];
        Expr ["ax.plot"; "jax.vmap"; "jax.vmap()"];
        Expr ["ax.legend"];
        Expr ["ax.set_xlabel"];
        Assign ["_"] ["ax.set_ylabel"] ];
  (* 17 *) markdown;
  (* 18 *) code []
      [ Assign ["random"] ["np.random.default_rng"];
        Assign ["X"] ["np.sort"; "random.uniform"];
        Assign ["y"] ["np.sin"; "random.normal"];
        Assign ["kernel"] ["kernels.ExpSquared"];
        Assign ["gp"] ["GaussianProcess"];
        Expr ["print"; "gp.log_probability"] ];
  (* 19 *) markdown;
  (* 20 *) code []
      [ Assign ["cond"] ["gp.condition"];
        Expr ["print"] ];
  (* 21 *) markdown;
  (* 22 *) code []
      [ Expr ["type"; "type"] ];
  (* 23 *) markdown;
  (* 24 *) code []
      [ Assign ["X_test"] ["np.linspace"];
        Assign ["_"; "cond_gp"] ["gp.condition"];
        Assign ["mu"] [];
        Assign ["std"] ["np.sqrt"];
        Expr ["plt.plot"];
        Expr ["plt.plot"];
        Expr ["plt.plot"];
        Assign ["y_samp"] ["cond_gp.sample"; "jax.random.PRNGKey"];
        Expr ["plt.plot"];
        Expr ["plt.plot"];
        Expr ["plt.plot"];
        Expr ["plt.legend"];
        Expr ["plt.xlim"; "X_test.min"; "X_test.max"];
        Expr ["plt.xlabel"];
        Assign ["_"] ["plt.ylabel"] ];
  (* 25 *) markdown;
  (* 26 *) code []
      [ Import [("jax.numpy", Some "jnp")];
        FunctionDef "build_gp" [] ["params"]
          [ Assign ["kernel"] ["jnp.exp"; "kernels.ExpSquared"; "jnp.exp"];
            Return ["GaussianProcess"; "jnp.exp"] ];
        FunctionDef "loss" ["jax.jit"] ["params"]
          [ Assign ["gp"] ["build_gp"];
            Return ["gp.log_probability"] ];
        Assign ["params"] [];
        Expr ["loss"] ];
  (* 27 *) markdown;
  (* 28 *) code []
      []
].

Definition likelihoods : notebook :=
[
  (* 0 *) code ["hide-cell"]
      [ Try [ Import [("tinygp", None)] ]
          [ExceptHandler "ImportError" [ Magic "pip install -q tinygp" ]] [] [];
        Try [ Import [("numpyro", None)] ]
          [ExceptHandler "ImportError" [ Magic "pip uninstall -y jax jaxlib";
              Magic "pip install -q numpyro jax jaxlib" ]] [] [];
        Try [ Import [("arviz", None)] ]
          [ExceptHandler "ImportError" [ Magic "pip install arviz" ]] [] [] ];
  (* 1 *) markdown;
  (* 2 *) code []
      [ Import [("numpy", Some "np")];
        Import [("matplotlib.pyplot", Some "plt")];
        Assign ["random"] ["np.random.default_rng"];
        Assign ["x"] ["np.linspace"];
        Assign ["true_log_rate"] ["np.cos"];
        Assign ["y"] ["random.poisson"; "np.exp"];
        Expr ["plt.plot"];
        Expr ["plt.plot"; "np.exp"];
        Expr ["plt.legend"];
        Expr ["plt.xlabel"];
        Assign ["_"] ["plt.ylabel"] ];
  (* 3 *) markdown;
  (* 4 *) code []
      [ Import [("jax", None)];
        Import [("jax.numpy", Some "jnp")];
        Import [("numpyro", None)];
        Import [("numpyro.distributions", Some "dist")];
        ImportFrom "tinygp" [("kernels", None); ("GaussianProcess", None)];
        Expr ["jax.config.update"];
        FunctionDef "model" [] ["x"; "y"]
          [ Assign ["mean"] ["numpyro.sample"; "dist.Normal"];
            Assign ["sigma"] ["numpyro.sample"; "dist.HalfNormal"];
            Assign ["rho"] ["numpyro.sample"; "dist.HalfNormal"];
            Assign ["kernel"] ["kernels.Matern52"];
            Assign ["gp"] ["GaussianProcess"];
            Assign ["log_rate"] ["numpyro.sample"; "gp.numpyro_dist"];
            Expr ["numpyro.sample"; "dist.Poisson"; "jnp.exp"] ];
        Assign ["nuts_kernel"] ["numpyro.infer.NUTS"];
        Assign ["mcmc"] ["numpyro.infer.MCMC"];
        Assign ["rng_key"] ["jax.random.PRNGKey"];
        Expr ["mcmc.run"];
        Assign ["samples"] ["mcmc.get_samples"] ];
  (* 5 *) markdown;
  (* 6 *) code []
      [ Assign ["q"] ["np.percentile"];
        Expr ["plt.plot"; "np.exp"];
        Expr ["plt.fill_between"; "np.exp"; "np.exp"];
        Expr ["plt.fill_between"; "np.exp"; "np.exp"];
        Expr ["plt.plot"; "np.exp"];
        Expr ["plt.plot"];
        Expr ["plt.legend"];
        Expr ["plt.xlabel"];
        Assign ["_"] ["plt.ylabel"] ];
  (* 7 *) markdown;
  (* 8 *) code []
      [ FunctionDef "model" [] ["x"; "y"]
          [ Assign ["mean"] ["numpyro.param"; "jnp.zeros"];
            Assign ["sigma"] ["numpyro.param"; "jnp.ones"];
            Assign ["rho"] ["numpyro.param"; "jnp.ones"];
            Assign ["kernel"] ["kernels.Matern52"];
            Assign ["gp"] ["GaussianProcess"];
            Assign ["log_rate"] ["numpyro.sample"; "gp.numpyro_dist"];
            Expr ["numpyro.sample"; "dist.Poisson"; "jnp.exp"] ];
        FunctionDef "guide" [] ["x"; "y"]
          [ Assign ["mu"] ["numpyro.param"; "jnp.zeros_like"; "jnp.log"];
            Assign ["sigma"] ["numpyro.param"; "jnp.ones_like"];
            Expr ["numpyro.sample"; "dist.Independent"; "dist.Normal"] ];
        Assign ["optim"] ["numpyro.optim.Adam"];
        Assign ["svi"] ["numpyro.infer.SVI"; "numpyro.infer.Trace_ELBO"];
        Assign ["results"] ["svi.run"; "jax.random.PRNGKey"] ];
  (* 9 *) markdown;
  (* 10 *) code []
      [ Assign ["mu"] [];
        Assign ["sigma"] [];
        Expr ["plt.plot"; "np.exp"];
        Expr ["plt.fill_between"; "np.exp"; "np.exp"];
        Expr ["plt.fill_between"; "np.exp"; "np.exp"];
        Expr ["plt.plot"; "np.exp"];
        Expr ["plt.plot"];
        Expr ["plt.legend"];
        Expr ["plt.xlabel"];
        Assign ["_"] ["plt.ylabel"] ];
  (* 11 *) code []
      []
].

Definition transforms : notebook :=
[
  (* 0 *) code ["hide-cell"]
      [ Try [ Import [("tinygp", None)] ]
          [ExceptHandler "ImportError" [ Magic "pip install -q tinygp" ]] [] [];
        Try [ Import [("flax", None)] ]
          [ExceptHandler "ImportError" [ Magic "pip install -q flax" ]] [] [];
        Try [ Import [("optax", None)] ]
          [ExceptHandler "ImportError" [ Magic "pip install -q optax" ]] [] [] ];
  (* 1 *) markdown;
  (* 2 *) markdown;
  (* 3 *) code []
      [ Import [("numpy", Some "np")];
        Import [("matplotlib.pyplot", Some "plt")];
        Assign ["random"] ["np.random.default_rng"];
        Assign ["noise"] [];
        Assign ["x"] ["np.sort"; "random.uniform"];
        Assign ["y"] ["random.normal"; "len"];
        Assign ["t"] ["np.linspace"];
        Expr ["plt.plot"];
        Expr ["plt.plot"];
        Expr ["plt.xlim"];
        Expr ["plt.ylim"];
        Expr ["plt.xlabel"];
        Expr ["plt.ylabel"];
        Assign ["_"] ["plt.legend"] ];
  (* 4 *) markdown;
  (* 5 *) code []
      [ Import [("jax", None)];
        Import [("optax", None)];
        Import [("jax.numpy", Some "jnp")];
        Import [("flax.linen", Some "nn")];
        ImportFrom "flax.linen.initializers" [("zeros", None)];
        ImportFrom "tinygp" [("kernels", None); ("transforms", None); ("GaussianProcess", None)];
        ClassDef "Transformer" [] ["nn.Module"]
          [ FunctionDef "__call__" ["nn.compact"] ["self"; "x"]
              [ Assign ["x"] ["nn.Dense"; "nn.Dense()"];
                Assign ["x"] ["nn.relu"];
                Assign ["x"] ["nn.Dense"; "nn.Dense()"];
                Assign ["x"] ["nn.relu"];
                Assign ["x"] ["nn.Dense"; "nn.Dense()"];
                Return [] ] ];
        ClassDef "GPLoss" [] ["nn.Module"]
          [ FunctionDef "__call__" ["nn.compact"] ["self"; "x"; "y"; "t"]
              [ Assign ["log_sigma"] ["self.param"];
                Assign ["log_rho"] ["self.param"];
                Assign ["log_jitter"] ["self.param"];
                Assign ["base_kernel"] ["jnp.exp"; "kernels.Matern32"; "jnp.exp"];
                Assign ["transform"] ["Transformer"];
                Assign ["kernel"] ["transforms.Transform"];
                Assign ["gp"] ["GaussianProcess"; "jnp.exp"];
                Assign ["log_prob"; "gp_cond"] ["gp.condition"];
                Return [] ] ];
        FunctionDef "loss" [] ["params"]
          [ Return ["model.apply"] ];
        Assign ["model"] ["GPLoss"];
        Assign ["params"] ["model.init"; "jax.random.PRNGKey"];
        Assign ["tx"] ["optax.sgd"];
        Assign ["opt_state"] ["tx.init"];
        Assign ["loss_grad_fn"] ["jax.jit"; "jax.value_and_grad"];
        For ["i"] ["range"]
          [ Assign ["loss_val"; "grads"] ["loss_grad_fn"];
            Assign ["updates"; "opt_state"] ["tx.update"];
            Assign ["params"] ["optax.apply_updates"] ];
        Expr ["plt.figure"];
        Assign ["mu"; "var"] ["model.apply"];
        Expr ["plt.plot"];
        Expr ["plt.plot"];
        Expr ["plt.plot"];
        Expr ["plt.fill_between"; "np.sqrt"; "np.sqrt"];
        Expr ["plt.xlim"];
        Expr ["plt.ylim"];
        Expr ["plt.xlabel"];
        Expr ["plt.ylabel"];
        Assign ["_"] ["plt.legend"] ];
  (* 6 *) code []
      []
].

Definition quasisep_custom : notebook :=
[
  (* 0 *) code ["hide-cell"]
      [ Try [ Import [("tinygp", None)] ]
          [ExceptHandler "ImportError" [ Magic "pip install -q tinygp" ]] [] [];
        Try [ Import [("jaxopt", None)] ]
          [ExceptHandler "ImportError" [ Magic "pip install -q jaxopt" ]] [] [] ];
  (* 1 *) markdown;
  (* 2 *) code []
      [ Import [("jax", None)];
        Import [("jax.numpy", Some "jnp")];
        Import [("tinygp", None)];
        Expr ["jax.config.update"];
        ClassDef "Multiband" ["tinygp.helpers.dataclass"] ["tinygp.kernels.quasisep.Wrapper"]
          [ AnnAssign "amplitudes" "jnp.ndarray";
            FunctionDef "coord_to_sortable" [] ["self"; "X"]
              [ Return [] ];
            FunctionDef "observation_model" [] ["self"; "X"]
              [ Return ["self.kernel.observation_model"] ] ] ];
  (* 3 *) markdown;
  (* 4 *) code ["hide-cell"]
      [ FunctionDef "plot_multiband_sample" [] ["kernel"]
          [ Assign ["gp"] ["tinygp.GaussianProcess"];
            Assign ["y"] ["gp.sample"; "jax.random.PRNGKey"];
            For ["i"] ["np.unique"]
              [ Expr ["plt.axhline"];
                Expr ["plt.plot"] ];
            Expr ["plt.xlim"];
            Expr ["plt.ylim"];
            Expr ["plt.yticks"];
            Expr ["plt.xlabel"];
            Expr ["plt.ylabel"];
            Expr ["plt.legend"] ] ];
  (* 5 *) code []
      [ Import [("numpy", Some "np")];
        Import [("matplotlib.pyplot", Some "plt")];
        Assign ["random"] ["np.random.default_rng"];
        Assign ["t"] ["np.sort"; "random.uniform"];
        Assign ["band_id"] ["random.choice"; "len"];
        Assign ["X"] [];
        Assign ["kernel"] ["Multiband"; "tinygp.kernels.quasisep.Matern52"; "jnp.array"];
        Expr ["plot_multiband_sample"] ];
  (* 6 *) markdown;
  (* 7 *) code []
      [ Assign ["kernel"] ["Multiband"; "tinygp.kernels.quasisep.Matern52"; "jnp.array"];
        AugAssign "kernel" ["Multiband"; "tinygp.kernels.quasisep.Matern52"; "jnp.array"];
        Expr ["plot_multiband_sample"] ];
  (* 8 *) markdown;
  (* 9 *) code []
      [ Assign ["R"] ["jnp.exp"; "jnp.arange"; "jnp.arange"];
        Assign ["L"] ["jnp.linalg.cholesky"];
        Assign ["base_kernel"] ["tinygp.kernels.quasisep.Matern52"];
        Assign ["kernel"] ["sum"; "Multiband"];
        Expr ["plot_multiband_sample"] ];
  (* 10 *) markdown;
  (* 11 *) code []
      [ ClassDef "Latent" ["tinygp.helpers.dataclass"] ["tinygp.kernels.quasisep.Wrapper"]
          [ AnnAssign "coeff_prim" "jnp.ndarray";
            AnnAssign "coeff_deriv" "jnp.ndarray";
            FunctionDef "coord_to_sortable" [] ["self"; "X"]
              [ Return [] ];
            FunctionDef "observation_model" [] ["self"; "X"]
              [ Assign ["t"; "label"] [];
                Assign ["design"] ["self.kernel.design_matrix"];
                Assign ["obs"] ["self.kernel.observation_model"];
                Assign ["obs_prim"] ["jnp.asarray"];
                Assign ["obs_deriv"] ["jnp.asarray"];
                Return [] ] ];
        Assign ["base_kernel"] ["tinygp.kernels.quasisep.Matern52";
              "tinygp.kernels.quasisep.Cosine"];
        Assign ["kernel"] ["Latent"];
        Assign ["random"] ["np.random.default_rng"];
        Assign ["t"] ["np.sort"; "random.uniform"];
        Assign ["label"] ["(...).astype"; "random.uniform"; "len"];
        Assign ["X"] [];
        Assign ["gp"] ["tinygp.GaussianProcess"];
        Assign ["y"] ["gp.sample"; "jax.random.PRNGKey"];
        Assign ["subset"] ["random.uniform"; "len"];
        Assign ["X_obs"] [];
        Assign ["y_obs"] ["random.normal"; "subset.sum"];
        Assign ["offset"] [];
        Expr ["plt.axhline"];
        Expr ["plt.axhline"];
        Expr ["plt.plot"];
        Expr ["plt.plot"];
        Expr ["plt.plot"];
        Expr ["plt.xlim"];
        Expr ["plt.ylim"];
        Expr ["plt.xlabel"];
        Expr ["plt.ylabel"];
        Assign ["_"] ["plt.legend"] ];
  (* 12 *) markdown;
  (* 13 *) code ["hide-cell"]
      [ FunctionDef "plot_latent_samples" [] ["kernel"]
          [ Assign ["yp"] ["tinygp.GaussianProcess"; "tinygp.GaussianProcess().sample";
                "Latent"; "jax.random.PRNGKey"];
            Expr ["plt.figure"];
            Expr ["plt.axhline"];
            Expr ["plt.axhline"];
            Expr ["plt.plot"];
            Expr ["plt.plot"];
            Expr ["plt.xlim"];
            Expr ["plt.ylim"];
            Expr ["plt.xlabel"];
            Expr ["plt.ylabel"];
            Assign ["_"] ["plt.legend"] ] ];
  (* 14 *) code []
      [ Expr ["plot_latent_samples"; "tinygp.kernels.quasisep.Matern32"];
        Expr ["plt.title"];
        Expr ["plot_latent_samples"; "tinygp.kernels.quasisep.SHO"];
        Assign ["_"] ["plt.title"] ];
  (* 15 *) markdown;
  (* 16 *) code []
      [ Expr ["plot_latent_samples"; "tinygp.kernels.quasisep.Matern52"];
        Expr ["plt.title"];
        Expr ["plot_latent_samples"; "tinygp.kernels.quasisep.Cosine"];
        Assign ["_"] ["plt.title"] ];
  (* 17 *) markdown;
  (* 18 *) code []
      [ Import [("jaxopt", None)];
        FunctionDef "build_gp" [] ["params"]
          [ Assign ["base_kernel"] ["tinygp.kernels.quasisep.Matern52"; "jnp.exp";
                "tinygp.kernels.quasisep.Cosine"; "jnp.exp"];
            Assign ["kernel"] ["Latent"];
            Return ["tinygp.GaussianProcess"; "jnp.exp"] ];
        FunctionDef "loss" ["jax.jit"] ["params"]
          [ Assign ["gp"] ["build_gp"];
            Return ["gp.log_probability"] ];
        Assign ["init"] ["np.log"; "np.log"; "np.array"; "np.array"; "np.log"];
        Expr ["print"; "loss"];
        Assign ["solver"] ["jaxopt.ScipyMinimize"];
        Assign ["soln"] ["solver.run"];
        Expr ["print"] ];
  (* 19 *) markdown;
  (* 20 *) code []
      [ Assign ["gp"] ["build_gp"];
        Assign ["gp_cond"] ["gp.condition"];
        Assign ["mu"; "var"] [];
        Expr ["plt.axhline"];
        Expr ["plt.axhline"];
        Expr ["plt.plot"];
        Expr ["plt.plot"];
        For ["c"] []
          [ Assign ["delta"] [];
            Assign ["m"] [];
            Expr ["plt.fill_between"; "np.sqrt"; "np.sqrt"] ];
        Expr ["plt.plot"];
        Expr ["plt.xlim"];
        Expr ["plt.ylim"];
        Expr ["plt.xlabel"];
        Expr ["plt.ylabel"];
        Assign ["_"] ["plt.legend"] ];
  (* 21 *) markdown;
  (* 22 *) code ["hide-cell"]
      [ Assign ["random"] ["np.random.default_rng"];
        Assign ["nt"] [];
        Assign ["tmax"] [];
        Assign ["t"] ["np.sort"; "np.concatenate"; "random.uniform"; "random.uniform"];
        Assign ["amp"] [];
        Assign ["P0"] [];
        Assign ["dP"] [];
        Assign ["P"] [];
        Assign ["y"] ["np.sin"];
        Assign ["tsmooth"] ["np.linspace"];
        Assign ["Psmooth"] [];
        Assign ["ysignal"] ["np.sin"];
        Assign ["dysignal"] ["np.cos"];
        Assign ["yerr_meas"] ["random.uniform"];
        Assign ["y"] ["random.normal"];
        Assign ["calib_id"] ["(...).astype"];
        Assign ["caliberr"] ["random.uniform"];
        Assign ["yerr_calib"] [];
        AugAssign "y" ["random.normal"] ];
  (* 23 *) code []
      [ Assign ["yerr"] ["np.sqrt"];
        Expr ["plt.plot"];
        Expr ["plt.errorbar"];
        Expr ["plt.xlabel"];
        Expr ["plt.ylabel"];
        Assign ["_"] ["plt.legend"] ];
  (* 24 *) markdown;
  (* 25 *) code []
      [ ImportFrom "collections" [("Counter", None)];
        Assign ["bandwidth"] ["max"; "Counter"; "Counter().values"];
        Assign ["off_diags"] ["np.zeros"];
        For ["j"] ["range"]
          [ Assign ["m"] [];
            Assign ["off_diags[][]"] [] ];
        Assign ["noise_model"] ["tinygp.noise.Banded"];
        Expr ["plt.imshow"; "np.eye"];
        Expr ["plt.xticks"];
        Expr ["plt.yticks"];
        Assign ["_"] ["plt.title"] ];
  (* 26 *) markdown;
  (* 27 *) code []
      [ Import [("jaxopt", None)];
        FunctionDef "build_gp" [] ["params"]
          [ Assign ["kernel"] ["tinygp.kernels.quasisep.SHO"; "jnp.exp"; "jnp.exp";
                "jnp.exp"];
            Return ["tinygp.GaussianProcess"] ];
        FunctionDef "loss" ["jax.jit"] ["params"]
          [ Assign ["gp"] ["build_gp"];
            Return ["gp.log_probability"] ];
        Assign ["init"] ["jnp.log"; "jnp.log"; "jnp.zeros"];
        Expr ["print"; "loss"];
        Assign ["solver"] ["jaxopt.ScipyMinimize"];
        Assign ["soln"] ["solver.run"];
        Expr ["print"];
        Assign ["gp"] ["build_gp"];
        Assign ["gp_cond"] ["gp.condition"];
        Assign ["mu"; "var"] [];
        Assign ["std"] ["np.sqrt"];
        Expr ["plt.plot"];
        Expr ["plt.errorbar"];
        Expr ["plt.plot"];
        Expr ["plt.fill_between"];
        Expr ["plt.xlabel"];
        Expr ["plt.ylabel"];
        Assign ["_"] ["plt.legend"] ];
  (* 28 *) markdown;
  (* 29 *) code []
      []
].

Definition notebooks : list (string * notebook) :=
  [ ("means", means);
    ("intro", intro);
    ("likelihoods", likelihoods);
    ("transforms", transforms);
    ("quasisep-custom", quasisep_custom) ].

(** Every statement of every code cell of the repository. *)
Definition all_statements : list stmt :=
  flat_map (fun nb => flat_map cell_statements (snd nb)) notebooks.

Definition kernel_classes : list stmt :=
  filter is_kernel_class all_statements.

Definition all_definitions : list (string * list string) :=
  map (fun nb => (fst nb, flat_map cell_definitions (snd nb))) notebooks.

(** ** Checks *)

(** Cell [i] of a notebook: the first cell holds import guards and
    nothing else, the others hold no error handling; no cell branches or
    loops on a condition. *)
Definition cell_ok (i : nat) (c : cell) : bool :=
  match c with
  | markdown => true
  | code _ body =>
      (if (i =? 0)%nat
       then negb (List.length body =? 0)%nat && forallb import_guard body
       else forallb (fun s => negb (is_error_handling s)) (statements body))
      && forallb (fun s => negb (is_conditional s)) (statements body)
  end.

Definition notebook_ok (nb : notebook) : bool :=
  forallb (fun p => cell_ok (fst p) (snd p))
          (combine (seq 0 (List.length nb)) nb).

End Notebooks.

(* ================================================================== *)
(** * Properties of the news workflow *)
(* ================================================================== *)

Section WorkflowFacts.

Import Workflow.
Local Open Scope string_scope.

(** ** The runner *)

Section Runner.

Context {PR Env : Type} (r : runner PR Env).

(** The steps a job starts are an initial segment of its steps, in the
    order of the file. *)
Lemma run_steps_started_prefix (ss : list step) (pr : PR) (env : Env) :
  exists k, snd (fst (run_steps r ss pr env)) = firstn k ss.
Proof.
  revert env; induction ss as [|s rest IH]; intro env.
  - exists 0%nat; reflexivity.
  - simpl. destruct (r s pr env) as [[|] env1].
    + destruct (IH env1) as [k Hk].
      destruct (run_steps r rest pr env1) as [[c started] env2].
      exists (S k); simpl in *; now rewrite Hk.
    + destruct (continue_on_error s).
      * destruct (IH env1) as [k Hk].
        destruct (run_steps r rest pr env1) as [[c started] env2].
        exists (S k); simpl in *; now rewrite Hk.
      * exists 1%nat; reflexivity.
Qed.

(** A job of steps without [continue-on-error] that succeeds has started
    every step. *)
Lemma run_steps_success_all (ss : list step) (pr : PR) (env : Env) :
  Forall (fun s => continue_on_error s = false) ss ->
  fst (fst (run_steps r ss pr env)) = success ->
  snd (fst (run_steps r ss pr env)) = ss.
Proof.
  revert env; induction ss as [|s rest IH]; intros env Hc Hs.
  - reflexivity.
  - inversion Hc as [|? ? Hs0 Hrest]; subst.
    simpl in *. destruct (r s pr env) as [[|] env1].
    + specialize (IH env1 Hrest).
      destruct (run_steps r rest pr env1) as [[c started] env2].
      simpl in *. now rewrite IH.
    + rewrite Hs0 in *. discriminate.
Qed.

(** Running [ss ++ [s]] without [continue-on-error]: when [ss] succeeds
    the conclusion is that of [s] in the state [ss] leaves; when [ss]
    fails, [s] is not run. *)
Lemma run_steps_snoc (ss : list step) (s : step) (pr : PR) (env : Env) :
  Forall (fun s => continue_on_error s = false) ss ->
  fst (fst (run_steps r (ss ++ [s])%list pr env)) =
    match fst (fst (run_steps r ss pr env)) with
    | success =>
        if continue_on_error s then success
        else fst (r s pr (snd (run_steps r ss pr env)))
    | failure => failure
    end.
Proof.
  revert env; induction ss as [|s0 rest IH]; intros env Hc.
  - simpl. destruct (r s pr env) as [[|] env1]; simpl;
      destruct (continue_on_error s); reflexivity.
  - inversion Hc as [|? ? Hs0 Hrest]; subst.
    simpl. destruct (r s0 pr env) as [[|] env1].
    + specialize (IH env1 Hrest).
      destruct (run_steps r (rest ++ [s]) pr env1) as [[c started] env2].
      destruct (run_steps r rest pr env1) as [[c' started'] env2'].
      simpl in *. exact IH.
    + rewrite Hs0. reflexivity.
Qed.

End Runner.

(** ** Patterns *)

Example glob_star_stays_in_directory :
  glob "*.yaml" ".pre-commit-config.yaml" = true
  /\ glob "*.yaml" ".github/workflows/news.yml" = false
  /\ glob "*.yml" ".github/workflows/news.yml" = false
  /\ glob "**.yml" ".github/workflows/news.yml" = true
  /\ glob "docs/**" "docs/tutorials/quasisep-custom.ipynb" = true.
Proof. repeat split; reflexivity. Qed.

Example news_ignores_only_the_config :
  triggered news {| ev_name := "pull_request";
                    ev_paths := [".pre-commit-config.yaml"] |} = false
  /\ triggered news {| ev_name := "pull_request";
                       ev_paths := [".pre-commit-config.yaml"; "README.md"] |}
     = true
  /\ triggered news {| ev_name := "push"; ev_paths := ["README.md"] |} = false.
Proof. repeat split; reflexivity. Qed.

Lemma glob_literal (pat : string) :
  literal pat = true -> forall s, glob pat s = true <-> s = pat.
Proof.
  induction pat as [|c pat' IH]; intros Hlit s.
  - destruct s; simpl; split; congruence.
  - simpl in Hlit. apply andb_prop in Hlit as [Hc Hlit'].
    apply negb_true_iff in Hc.
    cbn [glob]. rewrite Hc.
    destruct s as [|d s'].
    + split; congruence.
    + rewrite andb_true_iff, (IH Hlit' s'), Ascii.eqb_eq.
      split.
      * intros [-> ->]; reflexivity.
      * intros [= -> ->]; split; reflexivity.
Qed.

Lemma path_ignored_literal (pat p : string) :
  literal pat = true -> path_ignored [pat] p = true <-> p = pat.
Proof.
  intro Hlit. unfold path_ignored; simpl.
  rewrite orb_false_r. now apply glob_literal.
Qed.

(** C1.  The job [news] has exactly four steps, and the runner starts
    them in this order: the checkout action with [fetch-depth: 0]; the
    Python set-up action with [python-version: 3.9]; a script that
    upgrades pip and installs towncrier from the archive of commit
    6b1527b6...; the script
    [python -m towncrier check --compare-with origin/main].  Every run
    starts an initial segment of these four, and a run that concludes
    with success has started all four. *)
Theorem news_job_steps :
  assoc "news" (jobs news) = Some news_job
  /\ List.length (jobs news) = 1%nat
  /\ exists s1 s2 s3 s4,
       steps news_job = [s1; s2; s3; s4]
       /\ (step_uses s1 = Some "actions/checkout@v2"
           /\ assoc "fetch-depth" (step_with s1) = Some "0")
       /\ (step_uses s2 = Some "actions/setup-python@v2"
           /\ assoc "python-version" (step_with s2) = Some "3.9")
       /\ (step_uses s3 = None
           /\ commands s3 =
                [ "python -m pip install -U pip";
                  "python -m pip install " ++ towncrier_archive ])
       /\ towncrier_archive =
            "https://github.com/twisted/towncrier/archive/6b1527b6bf2cbb293ef411ac4f300bd50a5c98ae.zip"
       /\ (step_uses s4 = None
           /\ commands s4 =
                [ "python -m towncrier check --compare-with origin/main" ])
       /\ (forall (PR Env : Type) (r : runner PR Env) pr env,
             exists k, steps_started r news_job pr env = firstn k [s1; s2; s3; s4])
       /\ (forall (PR Env : Type) (r : runner PR Env) pr env,
             job_conclusion r news_job pr env = success ->
             steps_started r news_job pr env = [s1; s2; s3; s4]).
Proof.
  split; [reflexivity|]. split; [reflexivity|].
  exists checkout, setup_python, install_dependencies, check_for_news.
  repeat split; try reflexivity.
  - intros PR Env r pr env. apply (run_steps_started_prefix r).
  - intros PR Env r pr env H.
    apply (run_steps_success_all r (steps news_job)); [|exact H].
    repeat constructor.
Qed.

(** C2.  The workflow runs for an event exactly when the event is a
    [pull_request] and its changed paths are not all the file
    [.pre-commit-config.yaml]: no other event triggers it, a pull request
    that changes nothing but that file does not, and every other pull
    request does. *)
Theorem news_trigger (e : gh_event) :
  triggered news e = true <->
  ev_name e = "pull_request"
  /\ ~ Forall (fun p => p = ".pre-commit-config.yaml") (ev_paths e).
Proof.
  unfold triggered, trigger_fires; cbn [news on_ existsb event paths_ignore].
  rewrite orb_false_r, andb_true_iff, negb_true_iff, String.eqb_eq.
  set (config := ".pre-commit-config.yaml").
  assert (Hall : forallb (path_ignored [config]) (ev_paths e) = true
                 <-> Forall (fun p => p = config) (ev_paths e)).
  { rewrite forallb_forall, Forall_forall.
    split; intros H p Hp; apply (path_ignored_literal config p eq_refl); auto. }
  split.
  - intros [Hn Hf]. split; [now symmetry|].
    intro HF. apply Hall in HF. congruence.
  - intros [Hn Hf]. split; [now symmetry|].
    destruct (forallb _ _) eqn:E; [|reflexivity].
    exfalso. apply Hf, Hall. reflexivity.
Qed.


Lemma online_runner_contract :
  towncrier_contract online_runner (fun has_fragment => has_fragment).
Proof. intros [|] []; simpl; split; congruence. Qed.



(** Where towncrier keeps its promise and the three steps before the
    check succeed, the job fails exactly when the pull request holds no
    news fragment. *)
Corollary news_check_under_contract {PR Env : Type} (r : runner PR Env)
    (has_fragment : PR -> bool) (pr : PR) (env : Env) :
  towncrier_contract r has_fragment ->
  fst (fst (run_steps r setup_steps pr env)) = success ->
  (job_conclusion r news_job pr env = failure <-> has_fragment pr = false).
Proof.
  intros Hc Hs.
  assert (Hsnoc := run_steps_snoc r setup_steps check_for_news pr env).
  assert (Hno : Forall (fun s => continue_on_error s = false) setup_steps)
    by (repeat constructor).
  specialize (Hsnoc Hno).
  change (setup_steps ++ [check_for_news])%list with (steps news_job) in Hsnoc.
  unfold job_conclusion, run_job. rewrite Hsnoc, Hs.
  cbn [continue_on_error check_for_news]. apply Hc.
Qed.

(** A run in which every step does what it should fails without a news
    fragment and passes with one. *)
Example news_online_example :
  job_conclusion online_runner news_job false tt = failure
  /\ job_conclusion online_runner news_job true tt = success.
Proof. split; reflexivity. Qed.

End WorkflowFacts.

(* ================================================================== *)
(** * Properties of [mean_function] *)
(* ================================================================== *)

Section MeansFacts.

Import Py Jnp Means.
Local Open Scope R_scope.
Local Open Scope string_scope.

(** [jnp.array([1, mod])] stacks a scalar and a vector: the shapes differ
    whatever the length of the vector. *)
Lemma jnp_array_scalar_vector (x : R) (v : list R) :
  jnp_array [Scalar x; Vector v] = Raise ValueError.
Proof. reflexivity. Qed.

Lemma jnp_array_scalar_scalar (x y : R) :
  jnp_array [Scalar x; Scalar y] = Ok (Vector [x; y]).
Proof. reflexivity. Qed.

Section Params.

Variables (params : dict) (l w b a : R).
Hypothesis Hloc : dict_get params "loc" = Ok (Scalar l).
Hypothesis Hwidth : dict_get params "log_width" = Ok (Scalar w).
Hypothesis Hamps : dict_get params "amps" = Ok (Vector [b; a]).

(** The value at one coordinate, as the code computes it. *)
Lemma mean_function_scalar (x : R) :
  mean_function params (Scalar x) =
  Ok (Scalar (dot [b; a]
                  [1; exp (-0.5 * ((x - l) / exp w * ((x - l) / exp w)))])).
Proof.
  unfold mean_function. rewrite Hloc. cbn [bind sub binop].
  rewrite Hwidth. cbn [bind jnp_exp map_nd div binop jnp_square mul].
  rewrite jnp_array_scalar_scalar. cbn [bind]. rewrite Hamps.
  reflexivity.
Qed.

Lemma mean_function_vector (xs : list R) :
  mean_function params (Vector xs) = Raise ValueError.
Proof.
  unfold mean_function. rewrite Hloc. cbn [bind sub binop].
  rewrite Hwidth. cbn [bind jnp_exp map_nd div binop jnp_square mul].
  rewrite jnp_array_scalar_vector. reflexivity.
Qed.

(** Over the real numbers that value is the model of the tutorial's
    text.  The equation regroups the operations, so it is one of real
    numbers only: rounded operations do not satisfy it. *)
Lemma bump_as_dot (x : R) :
  dot [b; a] [1; exp (-0.5 * ((x - l) / exp w * ((x - l) / exp w)))]
  = gaussian_bump b a l w x.
Proof.
  unfold gaussian_bump, dot.
  assert (Hw : exp w <> 0) by (apply Rgt_not_eq, exp_pos).
  assert (Hhalf : -0.5 = - (1 / 2)) by lra.
  rewrite Hhalf.
  replace (- (1 / 2) * ((x - l) / exp w * ((x - l) / exp w)))
    with (- (x - l) ^ 2 / (2 * exp w ^ 2)) by (field; exact Hw).
  ring.
Qed.

End Params.

(** C4.  For a params dict with scalar [loc] and [log_width] and an
    [amps] array of length 2, [mean_function] returns a scalar at every
    scalar coordinate, and raises the shape error of [jnp.array([1, mod])]
    at every vector of coordinates (so at each of more than one
    coordinate): that call cannot stack a scalar with a vector. *)
Theorem mean_function_per_point (params : dict) (l w b a : R) :
  dict_get params "loc" = Ok (Scalar l) ->
  dict_get params "log_width" = Ok (Scalar w) ->
  dict_get params "amps" = Ok (Vector [b; a]) ->
  (forall x, exists y, mean_function params (Scalar x) = Ok (Scalar y))
  /\ (forall xs, (1 < List.length xs)%nat ->
        mean_function params (Vector xs) = Raise ValueError)
  /\ (forall m, jnp_array [Scalar 1; Vector m] = Raise ValueError).
Proof.
  intros Hloc Hwidth Hamps. split; [|split].
  - intro x. eexists. apply (mean_function_scalar params l w b a); assumption.
  - intros xs _. apply (mean_function_vector params l w); assumption.
  - intro m. apply jnp_array_scalar_vector.
Qed.

(** C4 on [mean_params], the parameters of the tutorial. *)
Lemma mean_function_per_point_witness :
  (forall x, exists y, mean_function mean_params (Scalar x) = Ok (Scalar y))
  /\ (forall xs, (1 < List.length xs)%nat ->
        mean_function mean_params (Vector xs) = Raise ValueError)
  /\ (forall m, jnp_array [Scalar 1; Vector m] = Raise ValueError).
Proof.
  exact (mean_function_per_point mean_params 5 (ln 0.5) 0.1 0.3
           eq_refl eq_refl eq_refl).
Defined.

End MeansFacts.

(* ================================================================== *)
(** * Properties of the kernel wrappers *)
(* ================================================================== *)

Section QuasisepFacts.

Import Py Jnp Quasisep.
Local Open Scope R_scope.

Lemma clamp_index_in_range (n : nat) (b : Z) :
  (0 <= b < Z.of_nat n)%Z -> clamp_index n b = Z.to_nat b.
Proof.
  intros [H0 Hn]. unfold clamp_index.
  destruct (Z.ltb_spec b 0); [lia|].
  rewrite Z.min_l by lia. rewrite Z.max_r by lia. reflexivity.
Qed.

Lemma clamp_index_lt (n : nat) (i : Z) :
  (0 < n)%nat -> (clamp_index n i < n)%nat.
Proof.
  intro Hn. unfold clamp_index.
  destruct (i <? 0)%Z; lia.
Qed.

(** Indexing a vector at a valid position. *)
Lemma getitem_vector (v : list R) (b : Z) :
  (0 <= b < Z.of_nat (List.length v))%Z ->
  getitem (Vector v) b = Ok (Scalar (nth (Z.to_nat b) v 0)).
Proof.
  intro Hb. unfold getitem.
  destruct v as [|x v']; [simpl in Hb; lia|].
  now rewrite clamp_index_in_range.
Qed.

Example latent_example :
  exists v, Latent.observation_model
              {| Latent.kernel_ := example_kernel;
                 Latent.coeff_prim := Vector [0.5; 0.02];
                 Latent.coeff_deriv := Vector [0.01; -0.2] |} (2, 1%Z)
            = Ok (Vector v)
            /\ List.length v = 3%nat.
Proof. eexists; split; reflexivity. Qed.

Example multiband_example :
  Multiband.observation_model example_multiband (2, 1%Z)
  = Ok (Vector [-1.1 * 1; -1.1 * 0; -1.1 * 0]).
Proof. reflexivity. Qed.

(** An index past the last band is clamped to it. *)
Example multiband_clamped :
  Multiband.observation_model example_multiband (2, 7%Z)
  = Multiband.observation_model example_multiband (2, 2%Z).
Proof. reflexivity. Qed.

End QuasisepFacts.

(* ================================================================== *)
(** * Values in binary64 *)
(* ================================================================== *)

Section Float64Facts.

Import Py F64.
Local Open Scope string_scope.
Local Open Scope float_scope.

#[local] Set Warnings "-inexact-float".


Section Params.

Variable exp64 : float -> float.
Variables (params : dict) (l w b a : float).
Hypothesis Hloc : dict_get params "loc" = Ok (Scalar l).
Hypothesis Hwidth : dict_get params "log_width" = Ok (Scalar w).
Hypothesis Hamps : dict_get params "amps" = Ok (Vector [b; a]).

(** The value at one coordinate, as the code computes it: every
    operation is the rounded one, in the order of the code. *)
Lemma f64_mean_function_scalar (x : float) :
  mean_function exp64 params (Scalar x) =
  Ok (Scalar (dot [b; a]
                  [1; exp64 (-0.5 * ((x - l) / exp64 w * ((x - l) / exp64 w)))])).
Proof.
  unfold mean_function. rewrite Hloc. cbn [bind sub binop].
  rewrite Hwidth. cbn [bind jnp_exp map_nd div binop jnp_square mul].
  cbn [jnp_array forallb shape Jnp.shape_eqb andb map item bind].
  rewrite Hamps. reflexivity.
Qed.

End Params.

(** A zero is below 710. *)
Lemma zero_below_overflow (x : float) :
  (x =? 0) = true -> (710 <=? x) = false.
Proof.
  rewrite eqb_spec, leb_spec.
  change (Prim2SF 0) with (S754_zero false).
  destruct (Prim2SF x) as [s|s| |s m e]; try discriminate.
  - intros _. vm_compute. reflexivity.
  - destruct s; discriminate.
  - destruct s; discriminate.
Qed.

(** The special cases do not contradict each other: there are functions
    that have them all. *)
Lemma ieee_exp_consistent : exists exp64, ieee_exp exp64.
Proof.
  exists (fun x => if x =? 0 then 1 else if 710 <=? x then infinity else nan).
  split.
  - intros x Hx. now rewrite Hx.
  - intros x Hx. destruct (x =? 0) eqn:E; [|now rewrite Hx].
    apply zero_below_overflow in E. congruence.
  - reflexivity.
Qed.

(** C7, amended.  For a params dict with scalar [loc] and [log_width]
    and [amps = [b, a]], in binary64 and whatever [jnp.exp] returns,
    [mean_function] at a scalar [x] succeeds and returns the dot product
    of [amps] with [[1, exp(-0.5 * square((x - loc) / exp(log_width)))]],
    every operation rounded and in this order: the difference divided by
    the exponential of [log_width], the quotient times itself, the
    product times [-0.5], its exponential, the dot product. *)
Theorem mean_function_value (exp64 : float -> float) (params : dict)
    (l w b a x : float) :
  dict_get params "loc" = Ok (Scalar l) ->
  dict_get params "log_width" = Ok (Scalar w) ->
  dict_get params "amps" = Ok (Vector [b; a]) ->
  mean_function exp64 params (Scalar x)
  = Ok (Scalar (dot [b; a]
                    [1; exp64 (-0.5 * ((x - l) / exp64 w
                                       * ((x - l) / exp64 w)))])).
Proof.
  intros Hloc Hwidth Hamps. now apply f64_mean_function_scalar.
Qed.

(** C7, amended, on the amplitudes of [mean_params], for every
    [jnp.exp]. *)
Lemma mean_function_value_witness :
  dict_get wide_params "loc" = Ok (Scalar 0)
  /\ dict_get wide_params "log_width" = Ok (Scalar 800)
  /\ dict_get wide_params "amps" = Ok (Vector [0.1; 0.3])
  /\ forall exp64 : float -> float,
       mean_function exp64 wide_params (Scalar 4)
       = Ok (Scalar (dot [0.1; 0.3]
                         [1; exp64 (-0.5 * ((4 - 0) / exp64 800
                                            * ((4 - 0) / exp64 800)))])).
Proof.
  split; [reflexivity|]. split; [reflexivity|]. split; [reflexivity|].
  intro exp64.
  exact (mean_function_value exp64 wide_params 0 800 0.1 0.3 4
           eq_refl eq_refl eq_refl).
Defined.

(** C7, as stated, fails in binary64.  With [log_width = 800] the
    exponential of the width is infinite; at [x = 1e200] the code divides
    by it first and returns [0.1 + 0.3 = 0.4], while in the closed form
    the square of [x - loc] overflows and is divided by an infinite
    number, which gives NaN.  This holds for every [jnp.exp] that
    respects the special cases of the standard, and there are such
    functions. *)
Lemma closed_form_differs :
  dict_get wide_params "loc" = Ok (Scalar 0)
  /\ dict_get wide_params "log_width" = Ok (Scalar 800)
  /\ dict_get wide_params "amps" = Ok (Vector [0.1; 0.3])
  /\ (exists exp64, ieee_exp exp64)
  /\ forall exp64, ieee_exp exp64 ->
       mean_function exp64 wide_params (Scalar 1e200) = Ok (Scalar 0.4)
       /\ gaussian_bump exp64 0.1 0.3 0 800 1e200 = nan
       /\ mean_function exp64 wide_params (Scalar 1e200)
          <> Ok (Scalar (gaussian_bump exp64 0.1 0.3 0 800 1e200)).
Proof.
  split; [reflexivity|]. split; [reflexivity|]. split; [reflexivity|].
  split; [exact ieee_exp_consistent|].
  intros exp64 [Hzero Hover Hnan].
  assert (Hw : exp64 800 = infinity) by (apply Hover; reflexivity).
  assert (Hcode : mean_function exp64 wide_params (Scalar 1e200)
                  = Ok (Scalar 0.4)).
  { rewrite (f64_mean_function_scalar exp64 wide_params 0 800 0.1 0.3
               eq_refl eq_refl eq_refl).
    rewrite Hw.
    change (-0.5 * ((1e200 - 0) / infinity * ((1e200 - 0) / infinity)))
      with (-0).
    rewrite (Hzero (-0)) by reflexivity. reflexivity. }
  assert (Hclosed : gaussian_bump exp64 0.1 0.3 0 800 1e200 = nan).
  { unfold gaussian_bump. rewrite Hw.
    change (- ((1e200 - 0) * (1e200 - 0)) / (2 * (infinity * infinity)))
      with nan.
    rewrite Hnan. reflexivity. }
  split; [exact Hcode|]. split; [exact Hclosed|].
  rewrite Hcode, Hclosed. intro H.
  apply (f_equal (fun r => match r with
                           | Ok (Scalar y) => is_nan y
                           | _ => false
                           end)) in H.
  vm_compute in H. discriminate.
Qed.




End Float64Facts.

(* ================================================================== *)
(** * Properties of the banded observation model *)
(* ================================================================== *)

Section BandedFacts.

Import Py Banded.
Local Open Scope R_scope.

(** ** Slices *)

Lemma take_nat {A} (k : nat) (a : list A) :
  (k <= List.length a)%nat -> take (Z.of_nat k) a = firstn k a.
Proof.
  intro Hk. unfold take, slice_bound.
  destruct (Z.ltb_spec (Z.of_nat k) 0); [lia|].
  rewrite Z.min_l by lia. now rewrite Nat2Z.id.
Qed.

Lemma drop_nat {A} (k : nat) (a : list A) :
  (k <= List.length a)%nat -> drop (Z.of_nat k) a = skipn k a.
Proof.
  intro Hk. unfold drop, slice_bound.
  destruct (Z.ltb_spec (Z.of_nat k) 0); [lia|].
  rewrite Z.min_l by lia. now rewrite Nat2Z.id.
Qed.

Lemma index_nat (n k : nat) : (k < n)%nat -> index n (Z.of_nat k) = Ok k.
Proof.
  intro Hk. unfold index.
  destruct (Z.leb_spec 0 (Z.of_nat k)); [|lia].
  destruct (Z.ltb_spec (Z.of_nat k) (Z.of_nat n)); [|lia].
  simpl. now rewrite Nat2Z.id.
Qed.

(** ** Counter *)

Lemma counter_add_total (x : Z) (c : list (Z * nat)) :
  total (counter_add x c) = S (total c).
Proof.
  induction c as [|[y n] c IH]; simpl; [reflexivity|].
  destruct (x =? y)%Z; simpl; [reflexivity|]. rewrite IH. lia.
Qed.

Lemma counter_add_positive (x : Z) (c : list (Z * nat)) :
  Forall (fun p => (1 <= snd p)%nat) c ->
  Forall (fun p => (1 <= snd p)%nat) (counter_add x c).
Proof.
  induction 1 as [|[y n] c Hy Hc IH]; simpl.
  - repeat constructor.
  - destruct (x =? y)%Z; constructor; simpl in *; auto; lia.
Qed.

Lemma counter_fold (l : list Z) (c : list (Z * nat)) :
  Forall (fun p => (1 <= snd p)%nat) c ->
  total (fold_left (fun c x => counter_add x c) l c) = (List.length l + total c)%nat
  /\ Forall (fun p => (1 <= snd p)%nat) (fold_left (fun c x => counter_add x c) l c).
Proof.
  revert c; induction l as [|x l IH]; intros c Hc; simpl.
  - split; [reflexivity|exact Hc].
  - destruct (IH (counter_add x c) (counter_add_positive x c Hc)) as [Ht Hp].
    split; [|exact Hp]. rewrite Ht, counter_add_total. lia.
Qed.

Lemma Counter_total (l : list Z) :
  total (Counter l) = List.length l
  /\ Forall (fun p => (1 <= snd p)%nat) (Counter l).
Proof.
  destruct (counter_fold l [] (Forall_nil _)) as [Ht Hp].
  split; [|exact Hp]. unfold Counter. rewrite Ht. simpl. lia.
Qed.

Lemma fold_max_bounds (l : list Z) (x lo hi : Z) :
  (lo <= x <= hi)%Z -> Forall (fun y => (y <= hi)%Z) l ->
  (lo <= fold_left Z.max l x <= hi)%Z.
Proof.
  revert x; induction l as [|y l IH]; intros x Hx Hl; simpl; [exact Hx|].
  inversion Hl; subst. apply IH; [lia|assumption].
Qed.

Lemma values_le_total (c : list (Z * nat)) :
  Forall (fun y => (y <= Z.of_nat (total c))%Z) (values c).
Proof.
  induction c as [|[y n] c IH]; simpl; constructor.
  - simpl. lia.
  - eapply Forall_impl; [|exact IH]. simpl. intros; lia.
Qed.

(** The bandwidth is defined for a non-empty array and is less than its
    length. *)
Lemma bandwidth_bounds (calib_id : list Z) :
  calib_id <> [] ->
  exists bw : nat,
    bandwidth calib_id = Ok (Z.of_nat bw)
    /\ (bw < List.length calib_id)%nat.
Proof.
  intro Hne. destruct (Counter_total calib_id) as [Ht Hp].
  unfold bandwidth.
  destruct (Counter calib_id) as [|[y n] c] eqn:E.
  - simpl in Ht. destruct calib_id; [congruence|discriminate].
  - unfold values. cbn [map py_max bind snd]. fold (values c).
    inversion Hp as [|? ? Hn Hc]; subst. simpl in Hn.
    assert (Hb : (1 <= fold_left Z.max (values c) (Z.of_nat n)
                  <= Z.of_nat (List.length calib_id))%Z).
    { apply fold_max_bounds.
      - rewrite <- Ht. simpl. lia.
      - rewrite <- Ht. eapply Forall_impl; [|apply values_le_total].
        simpl. intros; lia. }
    exists (Z.to_nat (fold_left Z.max (values c) (Z.of_nat n) - 1)).
    split; [f_equal; lia|lia].
Qed.

(** ** Masks *)

Lemma select_length {A} (a : list A) (m : list bool) :
  List.length a = List.length m -> List.length (select a m) = count_true m.
Proof.
  revert m; induction a as [|x a IH]; intros [|b m] H; try discriminate;
    [reflexivity|].
  injection H as H. unfold count_true in *. simpl.
  destruct b; simpl; rewrite (IH m H); reflexivity.
Qed.

Lemma select_Forall {A} (P : A -> Prop) (a : list A) (m : list bool) :
  Forall P a -> Forall P (select a m).
Proof.
  intro H; revert m; induction H as [|x a Hx Ha IH]; intros [|b m]; simpl;
    try constructor.
  destruct b; [constructor|]; auto.
Qed.

(** After [view[m] = f(ids[m])] the view holds [f(ids[i])] where the mask
    is set and its old value elsewhere. *)
Lemma put_mask_nth {A} (f : A -> R) (d' : A) (view : list R) (m : list bool)
    (ids : list A) (i : nat) (d : R) :
  List.length view = List.length m -> List.length ids = List.length m ->
  (i < List.length m)%nat ->
  nth i (put_mask view m (map f (select ids m))) d =
  if nth i m false then f (nth i ids d') else nth i view d.
Proof.
  revert m ids i.
  induction view as [|x view IH]; intros [|b m] [|c ids] i Hv Hi Hlt;
    try discriminate; simpl in Hlt; try lia.
  injection Hv as Hv. injection Hi as Hi.
  destruct b; simpl.
  - destruct i as [|i]; [reflexivity|]. apply IH; auto; lia.
  - destruct i as [|i]; [reflexivity|]. apply IH; auto; lia.
Qed.

Lemma put_mask_length (view : list R) (m : list bool) (vals : list R) :
  List.length (put_mask view m vals) = List.length view.
Proof.
  revert m vals; induction view as [|x view IH]; intros [|b m] vals; simpl;
    try reflexivity.
  destruct b; [destruct vals|]; simpl; now rewrite IH.
Qed.

(** ** Columns *)

Lemma set_nth_length (j : nat) (x : R) (r : list R) :
  List.length (set_nth j x r) = List.length r.
Proof.
  revert j; induction r as [|y r IH]; intros [|j]; simpl; auto.
Qed.

Lemma set_nth_nth (j j' : nat) (x : R) (r : list R) :
  (j < List.length r)%nat ->
  nth j' (set_nth j x r) 0 = if (j' =? j)%nat then x else nth j' r 0.
Proof.
  revert j j'; induction r as [|y r IH]; intros j j' Hj; simpl in Hj; [lia|].
  destruct j as [|j], j' as [|j']; simpl; try reflexivity.
  apply IH. lia.
Qed.

Lemma set_column_length (j : nat) (c : list R) (rs : list (list R)) :
  List.length (set_column j c rs) = List.length rs.
Proof.
  revert c; induction rs as [|r rs IH]; intros [|x c]; simpl; auto.
Qed.

Lemma set_column_nth (j : nat) (c : list R) (rs : list (list R)) (i : nat) :
  List.length c = List.length rs -> (i < List.length rs)%nat ->
  nth i (set_column j c rs) [] = set_nth j (nth i c 0) (nth i rs []).
Proof.
  revert c i; induction rs as [|r rs IH]; intros [|x c] i Hc Hi;
    try discriminate; simpl in Hi; try lia.
  injection Hc as Hc. destruct i as [|i]; simpl; [reflexivity|].
  apply IH; auto; lia.
Qed.

Lemma set_column_rows (j n : nat) (c : list R) (rs : list (list R)) :
  Forall (fun r => List.length r = n) rs ->
  Forall (fun r => List.length r = n) (set_column j c rs).
Proof.
  intro H; revert c; induction H as [|r rs Hr Hrs IH]; intros [|x c]; simpl;
    constructor; auto.
  now rewrite set_nth_length.
Qed.

Lemma column_length (j : nat) (rs : list (list R)) :
  List.length (column j rs) = List.length rs.
Proof. apply length_map. Qed.

Lemma column_nth (j i : nat) (rs : list (list R)) :
  (i < List.length rs)%nat -> nth i (column j rs) 0 = nth j (nth i rs []) 0.
Proof.
  intro Hi. unfold column.
  rewrite (nth_indep _ 0 (nth j [] 0)) by (now rewrite length_map).
  apply (map_nth (fun r => nth j r 0)).
Qed.

(** ** Integer-array indexing *)

Lemma fancy_index_in_range (a : list R) (idx : list Z) :
  Forall (in_range (List.length a)) idx ->
  fancy_index a idx = Ok (map (fun c => nth (Z.to_nat c) a 0) idx).
Proof.
  unfold fancy_index.
  induction 1 as [|c idx [H0 Hn] Hidx IH]; simpl; [reflexivity|].
  rewrite IH. unfold index.
  destruct (Z.leb_spec 0 c); [|lia].
  destruct (Z.ltb_spec c (Z.of_nat (List.length a))); [|lia].
  reflexivity.
Qed.

Lemma array_eq_same_length (a b : list Z) :
  List.length a = List.length b ->
  array_eq a b = Ok (map (fun p => (fst p =? snd p)%Z) (combine a b)).
Proof. intro H. unfold array_eq. now rewrite H, Nat.eqb_refl. Qed.

Lemma nth_eq_mask (a b : list Z) (i : nat) :
  List.length a = List.length b -> (i < List.length a)%nat ->
  nth i (map (fun p => (fst p =? snd p)%Z) (combine a b)) false
  = (nth i a 0 =? nth i b 0)%Z.
Proof.
  intros Hab Hi.
  rewrite (nth_indep _ false ((fun p => (fst p =? snd p)%Z) (0%Z, 0%Z))).
  - rewrite (map_nth (fun p => (fst p =? snd p)%Z)).
    rewrite combine_nth by exact Hab. reflexivity.
  - rewrite length_map, length_combine. lia.
Qed.

Lemma Forall_firstn {A} (P : A -> Prop) (k : nat) (l : list A) :
  Forall P l -> Forall P (firstn k l).
Proof.
  intro H; revert k; induction H; intros [|k]; simpl; constructor; auto.
Qed.

Lemma Forall_skipn {A} (P : A -> Prop) (k : nat) (l : list A) :
  Forall P l -> Forall P (skipn k l).
Proof.
  intro H; revert k; induction H; intros [|k]; simpl; auto.
Qed.

(** ** The loop *)

Section Cell.

Variables (calib_id : list Z) (caliberr : list R).
Hypothesis Hrange : Forall (in_range (List.length caliberr)) calib_id.

Lemma zeros_written (bw : nat) :
  exists a, zeros (Z.of_nat (List.length calib_id)) (Z.of_nat bw) = Ok a
            /\ written calib_id caliberr bw 0 a.
Proof.
  unfold zeros.
  destruct (Z.ltb_spec (Z.of_nat (List.length calib_id)) 0); [lia|].
  destruct (Z.ltb_spec (Z.of_nat bw) 0); [lia|].
  cbn [orb]. rewrite !Nat2Z.id. eexists; split; [reflexivity|].
  unfold written, entry; cbn [ncols rows].
  repeat split.
  - apply repeat_length.
  - apply Forall_forall. intros r Hr. apply repeat_spec in Hr. subst.
    apply repeat_length.
  - intros i j Hi Hj. cbn [Nat.ltb Nat.leb].
    rewrite nth_repeat_lt by exact Hi. apply nth_repeat.
Qed.

Lemma loop_body_written (bw k : nat) (a : array2) :
  (bw < List.length calib_id)%nat -> (k < bw)%nat -> written calib_id caliberr bw k a ->
  exists a',
    loop_body (Z.of_nat (List.length calib_id)) calib_id caliberr a (Z.of_nat k)
      = Ok a'
    /\ written calib_id caliberr bw (S k) a'.
Proof.
  intros Hbw Hk (Hcols & Hrows & Hlen & Hent).
  set (n := List.length calib_id) in *.
  set (K := (n - k - 1)%nat).
  assert (HK : (K + k + 1 = n)%nat) by (unfold K; lia).
  unfold loop_body.
  replace (Z.of_nat n - Z.of_nat k - 1)%Z with (Z.of_nat K) by lia.
  replace (Z.of_nat k + 1)%Z with (Z.of_nat (k + 1)) by lia.
  rewrite take_nat, drop_nat by (fold n; lia).
  assert (Hfst : List.length (firstn K calib_id) = K)
    by (rewrite length_firstn; fold n; lia).
  assert (Hskp : List.length (skipn (k + 1) calib_id) = K)
    by (rewrite length_skipn; fold n; lia).
  rewrite array_eq_same_length by congruence.
  set (m := map (fun p => (fst p =? snd p)%Z)
                (combine (firstn K calib_id) (skipn (k + 1) calib_id))).
  assert (Hm : List.length m = K).
  { unfold m. rewrite length_map, length_combine. lia. }
  cbn [bind]. unfold mask_select. rewrite Hfst, Hm, Nat.eqb_refl. cbn [bind].
  rewrite fancy_index_in_range
    by (apply select_Forall, Forall_firstn, Hrange).
  cbn [bind]. unfold setitem_column_mask.
  rewrite Hcols, (index_nat bw k Hk). cbn [bind].
  rewrite take_nat, drop_nat by lia.
  assert (Htop : List.length (firstn K (rows a)) = K)
    by (rewrite length_firstn; lia).
  rewrite column_length, Htop, Hm, Nat.eqb_refl. cbn [negb].
  unfold square. rewrite map_map, length_map.
  rewrite select_length by congruence. rewrite Nat.eqb_refl.
  eexists; split; [reflexivity|].
  set (g := fun c : Z => nth (Z.to_nat c) caliberr 0 ^ 2).
  set (view := column k (firstn K (rows a))).
  set (newcol := put_mask view m (map g (select (firstn K calib_id) m))).
  assert (Hview : List.length view = K)
    by (unfold view; now rewrite column_length).
  assert (Hnew : List.length newcol = K)
    by (unfold newcol; now rewrite put_mask_length).
  assert (HL : List.length (set_column k newcol (firstn K (rows a))) = K)
    by (now rewrite set_column_length).
  unfold written, entry; cbn [ncols rows]. repeat split.
  - rewrite length_app, HL, length_skipn. lia.
  - apply Forall_app; split.
    + apply set_column_rows, Forall_firstn, Hlen.
    + apply Forall_skipn, Hlen.
  - intros i j Hi Hj.
    assert (Hrow : List.length (nth i (rows a) []) = bw).
    { rewrite Forall_forall in Hlen. apply Hlen, nth_In. lia. }
    specialize (Hent i j Hi Hj) as Hij. unfold entry in Hij.
    specialize (Hent i k Hi Hk) as Hik. unfold entry in Hik.
    rewrite Nat.ltb_irrefl in Hik.
    destruct (Nat.lt_ge_cases i K) as [HiK|HiK].
    + rewrite app_nth1 by lia.
      rewrite set_column_nth by lia.
      rewrite nth_firstn. destruct (Nat.ltb_spec i K); [|lia].
      rewrite set_nth_nth by lia.
      destruct (Nat.eqb_spec j k) as [->|Hjk].
      * destruct (Nat.ltb_spec k (S k)); [|lia].
        unfold newcol.
        rewrite (put_mask_nth g 0%Z) by (rewrite ?Hview, ?Hfst, ?Hm; lia).
        unfold m. rewrite nth_eq_mask by lia.
        rewrite nth_firstn. destruct (Nat.ltb_spec i K); [|lia].
        rewrite nth_skipn.
        unfold view. rewrite column_nth by lia.
        rewrite nth_firstn. destruct (Nat.ltb_spec i K); [|lia].
        rewrite Hik. unfold coupling. fold n.
        destruct (Nat.ltb_spec (i + k + 1) n); [|lia].
        replace (k + 1 + i)%nat with (i + k + 1)%nat by lia.
        cbn [andb]. reflexivity.
      * rewrite Hij.
        destruct (Nat.ltb_spec j k), (Nat.ltb_spec j (S k)); try reflexivity; lia.
    + rewrite app_nth2 by lia. rewrite HL, nth_skipn.
      replace (K + (i - K))%nat with i by lia.
      destruct (Nat.eqb_spec j k) as [->|Hjk].
      * rewrite Hik. destruct (Nat.ltb_spec k (S k)); [|lia].
        unfold coupling. fold n.
        destruct (Nat.ltb_spec (i + k + 1) n); [lia|]. reflexivity.
      * rewrite Hij.
        destruct (Nat.ltb_spec j k), (Nat.ltb_spec j (S k)); try reflexivity; lia.
Qed.

Lemma for_each_written (bw m k : nat) (a : array2) :
  (bw < List.length calib_id)%nat -> (k + m = bw)%nat -> written calib_id caliberr bw k a ->
  exists a',
    for_each (loop_body (Z.of_nat (List.length calib_id)) calib_id caliberr)
             (map Z.of_nat (seq k m)) a = Ok a'
    /\ written calib_id caliberr bw bw a'.
Proof.
  intro Hbw. revert k a; induction m as [|m IH]; intros k a Hkm Ha.
  - exists a. split; [reflexivity|].
    replace k with bw in Ha by lia. exact Ha.
  - cbn [seq map for_each].
    assert (Hk : (k < bw)%nat) by lia.
    destruct (loop_body_written bw k a Hbw Hk Ha) as (a1 & -> & Ha1).
    cbn [bind]. apply IH; [lia|exact Ha1].
Qed.

End Cell.

(** C9.  For a non-empty [calib_id] of [nt] integers which all index
    [caliberr], the cell ends without an error with an [nt] by
    [bandwidth] array whose entry [(i, j)] is [caliberr[calib_id[i]]**2]
    when [i + j + 1 < nt] and [calib_id[i] == calib_id[i + j + 1]], and 0
    otherwise; so an entry that is not 0 joins two observations of one
    calibration. *)
Theorem off_diags_block_diagonal (nt : Z) (calib_id : list Z)
    (caliberr : list R) :
  nt = Z.of_nat (List.length calib_id) ->
  calib_id <> [] ->
  Forall (in_range (List.length caliberr)) calib_id ->
  exists (bw : nat) (a : array2),
    bandwidth calib_id = Ok (Z.of_nat bw)
    /\ off_diags nt calib_id caliberr = Ok a
    /\ List.length (rows a) = List.length calib_id
    /\ Forall (fun r => List.length r = bw) (rows a)
    /\ (forall i j, (i < List.length calib_id)%nat -> (j < bw)%nat ->
          entry a i j =
            if (i + j + 1 <? List.length calib_id)%nat
               && (nth i calib_id 0 =? nth (i + j + 1) calib_id 0)%Z
            then nth (Z.to_nat (nth i calib_id 0%Z)) caliberr 0 ^ 2
            else 0)
    /\ (forall i j, (i < List.length calib_id)%nat -> (j < bw)%nat ->
          entry a i j <> 0 ->
          (i + j + 1 < List.length calib_id)%nat
          /\ nth i calib_id 0%Z = nth (i + j + 1) calib_id 0%Z).
Proof.
  intros -> Hne Hrange.
  destruct (bandwidth_bounds calib_id Hne) as (bw & Hbw & Hlt).
  destruct (zeros_written calib_id caliberr bw) as (z & Hz & Hz0).
  destruct (for_each_written calib_id caliberr Hrange bw bw 0 z Hlt eq_refl Hz0)
    as (a & Ha & (Hcols & Hrows & Hlen & Hent)).
  exists bw, a. split; [exact Hbw|]. split.
  - unfold off_diags. rewrite Hbw. cbn [bind]. rewrite Hz. cbn [bind].
    unfold range. rewrite Nat2Z.id. exact Ha.
  - split; [exact Hrows|]. split; [exact Hlen|].
    assert (Hall : forall i j, (i < List.length calib_id)%nat -> (j < bw)%nat ->
                     entry a i j = coupling calib_id caliberr i j).
    { intros i j Hi Hj. rewrite (Hent i j Hi Hj).
      destruct (Nat.ltb_spec j bw); [reflexivity|lia]. }
    split; [exact Hall|].
    intros i j Hi Hj Hnz. rewrite (Hall i j Hi Hj) in Hnz. unfold coupling in Hnz.
    destruct (Nat.ltb_spec (i + j + 1) (List.length calib_id));
      [|now cbn [andb] in Hnz].
    destruct (Z.eqb_spec (nth i calib_id 0%Z) (nth (i + j + 1) calib_id 0%Z));
      [|now cbn [andb] in Hnz].
    split; assumption.
Qed.

Example bandwidth_example : bandwidth [0; 0; 1; 1; 1; 2]%Z = Ok 2%Z.
Proof. reflexivity. Qed.

(** Six observations in three calibrations: the first two, the next three
    and the last one. *)
Example off_diags_example :
  off_diags 6 [0; 0; 1; 1; 1; 2]%Z [3; 5; 7] =
  Ok {| ncols := 2;
        rows := [ [3 ^ 2; 0]; [0; 0]; [5 ^ 2; 5 ^ 2]; [5 ^ 2; 0];
                  [0; 0]; [0; 0] ] |}.
Proof. reflexivity. Qed.

(** C9 on the six observations above. *)
Lemma off_diags_block_diagonal_witness :
  exists (bw : nat) (a : array2),
    bandwidth [0; 0; 1; 1; 1; 2]%Z = Ok (Z.of_nat bw)
    /\ off_diags 6 [0; 0; 1; 1; 1; 2]%Z [3; 5; 7] = Ok a
    /\ List.length (rows a) = 6%nat
    /\ Forall (fun r => List.length r = bw) (rows a)
    /\ (forall i j, (i < 6)%nat -> (j < bw)%nat ->
          entry a i j =
            if (i + j + 1 <? 6)%nat
               && (nth i [0; 0; 1; 1; 1; 2] 0 =? nth (i + j + 1) [0; 0; 1; 1; 1; 2] 0)%Z
            then nth (Z.to_nat (nth i [0; 0; 1; 1; 1; 2]%Z 0%Z)) [3; 5; 7] 0 ^ 2
            else 0)
    /\ (forall i j, (i < 6)%nat -> (j < bw)%nat ->
          entry a i j <> 0 ->
          (i + j + 1 < 6)%nat
          /\ nth i [0; 0; 1; 1; 1; 2]%Z 0%Z = nth (i + j + 1) [0; 0; 1; 1; 1; 2]%Z 0%Z).
Proof.
  apply (off_diags_block_diagonal 6 [0; 0; 1; 1; 1; 2]%Z [3; 5; 7]).
  - reflexivity.
  - discriminate.
  - repeat constructor; unfold in_range; simpl; lia.
Defined.

End BandedFacts.

(* ================================================================== *)
(** * Properties of the notebooks' code *)
(* ================================================================== *)

Section NotebookFacts.

Import Notebooks.
Local Open Scope string_scope.
Local Open Scope list_scope.

Lemma nth_error_In_indexed {A} (l : list A) (i k : nat) (x : A) :
  nth_error l i = Some x ->
  In ((i + k)%nat, x) (combine (seq k (List.length l)) l).
Proof.
  revert i k; induction l as [|y l IH]; intros [|i] k H; try discriminate.
  - injection H as ->. left. reflexivity.
  - right. replace (S i + k)%nat with (i + S k)%nat by lia. now apply IH.
Qed.

Lemma notebook_ok_cell (nb : notebook) (i : nat) (c : cell) :
  notebook_ok nb = true -> nth_error nb i = Some c -> cell_ok i c = true.
Proof.
  intros Hok Hnth. unfold notebook_ok in Hok.
  rewrite forallb_forall in Hok.
  apply (Hok (i, c)).
  rewrite <- (Nat.add_0_r i) at 1. now apply nth_error_In_indexed.
Qed.

Lemma forallb_negb_Forall {A} (f : A -> bool) (l : list A) :
  forallb (fun x => negb (f x)) l = true -> Forall (fun x => f x = false) l.
Proof.
  rewrite forallb_forall, Forall_forall. intros H x Hx.
  apply negb_true_iff, H, Hx.
Qed.

Lemma notebooks_ok : forallb (fun nb => notebook_ok (snd nb)) notebooks = true.
Proof. vm_compute. reflexivity. Qed.

(** C5, as stated, fails: a cell of the repository holds an exception
    handler (the first cell of each notebook does). *)
Lemma some_cell_handles_an_error :
  ~ (forall (nb : string * notebook) (c : cell),
       In nb notebooks -> In c (snd nb) -> has_error_handling c = false).
Proof.
  intro H.
  specialize (H ("means", means) (hd markdown means)).
  assert (Habs : has_error_handling (hd markdown means) = false).
  { apply H; simpl; auto. }
  vm_compute in Habs. discriminate.
Qed.

(** C5, amended.  In every notebook the first cell is a non-empty
    sequence of import guards ([try: import m] with the one handler
    [except ImportError:] that runs [%pip] magics, without [else] or
    [finally]); no other cell holds a [try], [raise] or [assert] at any
    depth; no cell holds an [if] or [while] statement; and no step of the
    news job sets [if] or [continue-on-error]. *)
Theorem error_handling_is_import_guards (title : string) (nb : notebook)
    (i : nat) (tags : list string) (body : list stmt) :
  In (title, nb) notebooks ->
  nth_error nb i = Some (code tags body) ->
  (i = 0%nat -> body <> [] /\ Forall (fun s => import_guard s = true) body)
  /\ (i <> 0%nat ->
      Forall (fun s => is_error_handling s = false) (statements body))
  /\ Forall (fun s => is_conditional s = false) (statements body)
  /\ Forall (fun s => Workflow.step_if s = None
                      /\ Workflow.continue_on_error s = false)
            (Workflow.steps Workflow.news_job).
Proof.
  intros Hnb Hcell.
  assert (Hok : notebook_ok nb = true).
  { pose proof notebooks_ok as H. rewrite forallb_forall in H.
    exact (H (title, nb) Hnb). }
  pose proof (notebook_ok_cell nb i _ Hok Hcell) as Hc.
  cbn [cell_ok] in Hc. apply andb_prop in Hc as [Hfirst Hcond].
  split; [|split; [|split]].
  - intros ->. cbn [Nat.eqb] in Hfirst.
    apply andb_prop in Hfirst as [Hne Hguards]. split.
    + intros ->. discriminate.
    + rewrite forallb_forall in Hguards. now apply Forall_forall.
  - intro Hi. destruct i as [|i]; [contradiction|].
    cbn [Nat.eqb] in Hfirst. now apply forallb_negb_Forall.
  - now apply forallb_negb_Forall.
  - repeat constructor.
Qed.

(** The amended C5 on the first cell of the introduction. *)
Lemma error_handling_is_import_guards_witness :
  (0%nat = 0%nat ->
     [ Try [ Import [("tinygp", None)] ]
         [ExceptHandler "ImportError" [ Magic "pip install -q tinygp" ]] [] [] ]
       <> []
     /\ Forall (fun s => import_guard s = true)
          [ Try [ Import [("tinygp", None)] ]
              [ExceptHandler "ImportError" [ Magic "pip install -q tinygp" ]]
              [] [] ])
  /\ (0%nat <> 0%nat ->
      Forall (fun s => is_error_handling s = false)
        (statements
           [ Try [ Import [("tinygp", None)] ]
               [ExceptHandler "ImportError" [ Magic "pip install -q tinygp" ]]
               [] [] ]))
  /\ Forall (fun s => is_conditional s = false)
        (statements
           [ Try [ Import [("tinygp", None)] ]
               [ExceptHandler "ImportError" [ Magic "pip install -q tinygp" ]]
               [] [] ])
  /\ Forall (fun s => Workflow.step_if s = None
                      /\ Workflow.continue_on_error s = false)
            (Workflow.steps Workflow.news_job).
Proof.
  apply (error_handling_is_import_guards "intro" intro 0 ["hide-cell"]).
  - simpl; auto.
  - reflexivity.
Defined.

(** C6.  The kernel classes of the repository (the classes with a base in
    [tinygp.kernels]) are [Multiband] and [Latent]; each has the one base
    [tinygp.kernels.quasisep.Wrapper], defines exactly the methods
    [coord_to_sortable] and [observation_model], and calls nothing but the
    wrapped kernel's [observation_model] and [design_matrix] and
    [jnp.asarray].  The classes and functions the notebooks define are
    those listed: none of them is a solver or other kernel machinery. *)
Theorem kernel_classes_are_wrappers :
  map class_name kernel_classes = [Some "Multiband"; Some "Latent"]
  /\ (forall s, In s all_statements -> is_kernel_class s = true ->
        class_bases s = ["tinygp.kernels.quasisep.Wrapper"]
        /\ methods s = ["coord_to_sortable"; "observation_model"]
        /\ Forall (fun c => In c [ "self.kernel.observation_model";
                                   "self.kernel.design_matrix";
                                   "jnp.asarray" ])
                  (calls_in s))
  /\ all_definitions =
       [ ("means",
          ["mean_function"; "build_gp"; "loss"; "build_gp_v2"; "loss_v2"]);
         ("intro", ["plot_kernel"; "mean_function"; "build_gp"; "loss"]);
         ("likelihoods", ["model"; "model"; "guide"]);
         ("transforms",
          ["Transformer"; "Transformer.__call__"; "GPLoss"; "GPLoss.__call__";
           "loss"]);
         ("quasisep-custom",
          ["Multiband"; "Multiband.coord_to_sortable";
           "Multiband.observation_model"; "plot_multiband_sample"; "Latent";
           "Latent.coord_to_sortable"; "Latent.observation_model";
           "plot_latent_samples"; "build_gp"; "loss"; "build_gp"; "loss"]) ].
Proof.
  split; [vm_compute; reflexivity|]. split; [|vm_compute; reflexivity].
  intros s Hin Hk.
  assert (Hs : In s kernel_classes) by (apply filter_In; split; assumption).
  vm_compute in Hs.
  destruct Hs as [<-|[<-|[]]]; (split; [reflexivity|split; [reflexivity|]]);
    match goal with
    | |- Forall _ ?l => let l' := eval vm_compute in l in change l with l'
    end;
    repeat (apply Forall_cons; [simpl; auto 6|]); apply Forall_nil.
Qed.

End NotebookFacts.

(* ================================================================== *)
(** * More on the mean-function tutorial *)
(* ================================================================== *)

Section MeansMore.

Import Py Jnp Means.
Local Open Scope R_scope.
Local Open Scope string_scope.
Local Open Scope list_scope.

Lemma mapM_ok {A B} (f : A -> result B) (g : A -> B) (l : list A) :
  (forall x, In x l -> f x = Ok (g x)) -> mapM f l = Ok (map g l).
Proof.
  induction l as [|x l IH]; intro H; simpl; [reflexivity|].
  rewrite (H x) by (left; reflexivity). cbn [bind].
  rewrite IH by (intros y Hy; apply H; right; exact Hy). reflexivity.
Qed.

Lemma forallb_scalars (x : R) (ys : list R) :
  forallb (fun b => shape_eqb (shape b) (shape (Scalar x))) (map Scalar ys)
  = true.
Proof. induction ys as [|y ys IH]; simpl; auto. Qed.

(** Stacking scalars gives the vector of their values. *)
Lemma jnp_array_scalars (ys : list R) :
  jnp_array (map Scalar ys) = Ok (Vector ys).
Proof.
  destruct ys as [|y ys]; [reflexivity|].
  unfold jnp_array. cbn [map]. 
  change (Scalar y :: map Scalar ys) with (map Scalar (y :: ys)).
  rewrite forallb_scalars. rewrite map_map. cbn [item].
  now rewrite map_id.
Qed.

(** X1.  Mapped with [jax.vmap] over a vector of coordinates of any
    length, the empty one too, [mean_function] returns a vector with one
    entry per coordinate, the entry at a position being what
    [mean_function] returns at the coordinate of that position; mapped
    over a scalar it raises [ValueError].  The function is traced before
    any coordinate is looked at, so what it raises (for a dict without
    one of its keys, say) is raised for every batch, the empty one
    too. *)
Theorem vmapped_mean_function_values (params : dict) (l w b a : R) :
  dict_get params "loc" = Ok (Scalar l) ->
  dict_get params "log_width" = Ok (Scalar w) ->
  dict_get params "amps" = Ok (Vector [b; a]) ->
  (forall xs, exists ys,
      vmapped_mean_function params (Vector xs) = Ok (Vector ys)
      /\ List.length ys = List.length xs
      /\ forall i, (i < List.length xs)%nat ->
           mean_function params (Scalar (nth i xs 0))
           = Ok (Scalar (nth i ys 0)))
  /\ (forall x, vmapped_mean_function params (Scalar x) = Raise ValueError)
  /\ (forall (other : dict) (e : exn),
        mean_function other (Scalar 0) = Raise e ->
        forall xs, vmapped_mean_function other (Vector xs) = Raise e).
Proof.
  intros Hloc Hwidth Hamps. split; [|split; [reflexivity|]].
  - intro xs.
    set (f := fun x => dot [b; a]
                [1; exp (-0.5 * ((x - l) / exp w * ((x - l) / exp w)))]).
    assert (Hf : forall x, mean_function params (Scalar x) = Ok (Scalar (f x)))
      by (intro x; apply (mean_function_scalar params l w b a Hloc Hwidth Hamps)).
    exists (map f xs). split; [|split].
    + unfold vmapped_mean_function, vmap. rewrite Hf. cbn [bind].
      rewrite (mapM_ok _ (fun x => Scalar (f x))) by (intros x _; apply Hf).
      cbn [bind]. rewrite <- (map_map f Scalar).
      destruct xs as [|x xs]; [reflexivity|].
      apply (jnp_array_scalars (map f (x :: xs))).
    + apply length_map.
    + intros i Hi. rewrite Hf. do 2 f_equal.
      rewrite (nth_indep (map f xs) 0 (f 0))
        by (rewrite length_map; exact Hi).
      symmetry. apply map_nth.
  - intros other e He xs. unfold vmapped_mean_function, vmap.
    rewrite He. reflexivity.
Qed.

Lemma vmapped_mean_function_values_witness :
  (forall xs, exists ys,
      vmapped_mean_function mean_params (Vector xs) = Ok (Vector ys)
      /\ List.length ys = List.length xs
      /\ forall i, (i < List.length xs)%nat ->
           mean_function mean_params (Scalar (nth i xs 0))
           = Ok (Scalar (nth i ys 0)))
  /\ (forall x, vmapped_mean_function mean_params (Scalar x)
                = Raise ValueError)
  /\ (forall (other : dict) (e : exn),
        mean_function other (Scalar 0) = Raise e ->
        forall xs, vmapped_mean_function other (Vector xs) = Raise e).
Proof.
  exact (vmapped_mean_function_values mean_params 5 (ln 0.5) 0.1 0.3
           eq_refl eq_refl eq_refl).
Defined.

(** An empty batch with a dict that lacks [amps]. *)
Example vmapped_empty_batch :
  vmapped_mean_function [("loc", Scalar 5); ("log_width", Scalar 0)]
    (Vector []) = Raise KeyError.
Proof. reflexivity. Qed.

(** ** Keys *)

Lemma dict_get_app_other (extra d : dict) (k : string) :
  Forall (fun kv => fst kv <> k) extra ->
  dict_get (extra ++ d) k = dict_get d k.
Proof.
  induction 1 as [|[k' v] extra Hk Hextra IH]; simpl; [reflexivity|].
  simpl in Hk. destruct (String.eqb_spec k k'); [congruence|exact IH].
Qed.

Lemma dict_get_missing (d : dict) (k : string) :
  ~ In k (map fst d) -> dict_get d k = Raise KeyError.
Proof.
  induction d as [|[k' v] d IH]; simpl; intro H; [reflexivity|].
  destruct (String.eqb_spec k k') as [->|Hne]; [tauto|].
  apply IH. tauto.
Qed.

(** X2.  [mean_function] reads the keys [loc], [log_width] and [amps]
    only: with other items put before a dict, it returns what it returns
    on the dict, and raises what it raises there. *)
Theorem mean_function_ignores_other_keys (extra d : dict) (X : ndarray) :
  Forall (fun kv => ~ In (fst kv) mean_keys) extra ->
  mean_function (extra ++ d) X = mean_function d X.
Proof.
  intro H.
  assert (Hk : forall k, In k mean_keys ->
                 dict_get (extra ++ d) k = dict_get d k).
  { intros k Hin. apply dict_get_app_other.
    eapply Forall_impl; [|exact H].
    intros kv Hkv Heq. apply Hkv. rewrite Heq. exact Hin. }
  unfold mean_function.
  rewrite !Hk by (unfold mean_keys; simpl; auto). reflexivity.
Qed.

Lemma mean_function_ignores_other_keys_witness :
  mean_function gp_params (Scalar 4) = mean_function mean_params (Scalar 4).
Proof.
  apply (mean_function_ignores_other_keys
           [ ("log_gp_amp", Scalar (ln 0.1));
             ("log_gp_scale", Scalar (ln 3));
             ("log_gp_diag", Scalar (ln 0.03)) ] mean_params (Scalar 4)).
  repeat constructor; simpl; intros [H|[H|[H|[]]]]; discriminate.
Defined.

Lemma sub_scalar_ok (X : ndarray) (l : R) : exists Y, sub X (Scalar l) = Ok Y.
Proof. destruct X; eexists; reflexivity. Qed.

(** X3.  A params dict without [loc] or without [log_width] makes
    [mean_function] raise [KeyError] at every input.  Without [amps] it
    raises [KeyError] at a scalar coordinate, but at a vector of
    coordinates the shape error of [jnp.array] comes first. *)
Theorem mean_function_missing_key (params : dict) :
  (~ In "loc" (map fst params) ->
   forall X, mean_function params X = Raise KeyError)
  /\ (forall l, dict_get params "loc" = Ok (Scalar l) ->
      ~ In "log_width" (map fst params) ->
      forall X, mean_function params X = Raise KeyError)
  /\ (forall l w, dict_get params "loc" = Ok (Scalar l) ->
      dict_get params "log_width" = Ok (Scalar w) ->
      ~ In "amps" (map fst params) ->
      (forall x, mean_function params (Scalar x) = Raise KeyError)
      /\ (forall xs, mean_function params (Vector xs) = Raise ValueError)).
Proof.
  split; [|split].
  - intros H X. unfold mean_function.
    now rewrite (dict_get_missing _ _ H).
  - intros l Hloc H X. unfold mean_function. rewrite Hloc. cbn [bind].
    destruct (sub_scalar_ok X l) as [Y ->]. cbn [bind].
    now rewrite (dict_get_missing _ _ H).
  - intros l w Hloc Hwidth H. split.
    + intro x. unfold mean_function. rewrite Hloc. cbn [bind sub binop].
      rewrite Hwidth. cbn [bind jnp_exp map_nd div binop jnp_square mul].
      rewrite jnp_array_scalar_scalar. cbn [bind].
      now rewrite (dict_get_missing _ _ H).
    + intro xs. exact (mean_function_vector params l w Hloc Hwidth xs).
Qed.

(** X4.  With scalar [loc] and [log_width], [mean_function] at a scalar
    coordinate succeeds exactly when the array [amps] of rank 1 has two
    elements; any other length is a [TypeError] of the operator [@], and
    an [amps] of rank 0 is a [ValueError] of it. *)
Theorem mean_function_amps_shape (params : dict) (l w x : R) :
  dict_get params "loc" = Ok (Scalar l) ->
  dict_get params "log_width" = Ok (Scalar w) ->
  (forall v, dict_get params "amps" = Ok (Vector v) ->
     (List.length v = 2%nat ->
        exists y, mean_function params (Scalar x) = Ok (Scalar y))
     /\ (List.length v <> 2%nat ->
           mean_function params (Scalar x) = Raise TypeError))
  /\ (forall c, dict_get params "amps" = Ok (Scalar c) ->
        mean_function params (Scalar x) = Raise ValueError).
Proof.
  intros Hloc Hwidth.
  assert (Hpre : forall amps, dict_get params "amps" = Ok amps ->
            mean_function params (Scalar x) =
            matmul amps
              (Vector [1; exp (-0.5 * ((x - l) / exp w * ((x - l) / exp w)))])).
  { intros amps Hamps. unfold mean_function.
    rewrite Hloc. cbn [bind sub binop]. rewrite Hwidth.
    cbn [bind jnp_exp map_nd div binop jnp_square mul].
    rewrite jnp_array_scalar_scalar. cbn [bind]. rewrite Hamps. reflexivity. }
  split.
  - intros v Hamps. rewrite (Hpre _ Hamps). cbn [matmul List.length]. split.
    + intros ->. eexists; reflexivity.
    + intro Hne. destruct (Nat.eqb_spec (List.length v) 2); [contradiction|].
      reflexivity.
  - intros c Hamps. rewrite (Hpre _ Hamps). reflexivity.
Qed.

Lemma mean_function_amps_shape_witness :
  (forall v, dict_get mean_params "amps" = Ok (Vector v) ->
     (List.length v = 2%nat ->
        exists y, mean_function mean_params (Scalar 4) = Ok (Scalar y))
     /\ (List.length v <> 2%nat ->
           mean_function mean_params (Scalar 4) = Raise TypeError))
  /\ (forall c, dict_get mean_params "amps" = Ok (Scalar c) ->
        mean_function mean_params (Scalar 4) = Raise ValueError).
Proof.
  exact (mean_function_amps_shape mean_params 5 (ln 0.5) 4 eq_refl eq_refl).
Defined.

End MeansMore.

(* ================================================================== *)
(** * More on the kernel wrappers *)
(* ================================================================== *)

Section LatentFacts.

Import Py Jnp Quasisep.
Local Open Scope R_scope.

Lemma zip_with_seq (f : R -> R -> R) (g : nat -> R) (l : list R) (k : nat) :
  zip_with f l (map g (seq k (List.length l)))
  = map (fun i => f (nth (i - k) l 0) (g i)) (seq k (List.length l)).
Proof.
  unfold zip_with. revert k; induction l as [|x l IH]; intro k; simpl;
    [reflexivity|].
  rewrite Nat.sub_diag. f_equal. rewrite IH.
  apply map_ext_in. intros i Hi. apply in_seq in Hi.
  replace (i - k)%nat with (S (i - S k)) by lia. reflexivity.
Qed.

Lemma dot_scaled (c : R) (u v : list R) :
  dot (map (Rmult c) u) v = c * dot u v.
Proof.
  revert v; induction u as [|x u IH]; intros [|y v]; simpl; try ring.
  rewrite IH. ring.
Qed.

Lemma map_nth_seq (l : list R) :
  map (fun i => nth i l 0) (seq 0 (List.length l)) = l.
Proof.
  induction l as [|x l IH]; simpl; [reflexivity|]. f_equal.
  rewrite <- seq_shift, map_map. exact IH.
Qed.

(** The components of the observation model, for a kernel with [n] states
    (an observation model of length [n], a design matrix of [n] rows and
    [n] columns). *)
Lemma latent_components (self : Latent.t) (cp cd o : list R)
    (D : list (list R)) (t : R) (label : Z) :
  Latent.coeff_prim self = Vector cp ->
  Latent.coeff_deriv self = Vector cd ->
  (0 <= label < Z.of_nat (List.length cp))%Z ->
  (0 <= label < Z.of_nat (List.length cd))%Z ->
  observation_model (Latent.kernel_ self) t = Ok (Vector o) ->
  design_matrix (Latent.kernel_ self) = Ok (Matrix D) ->
  List.length D = List.length o ->
  ncols D = List.length o ->
  Latent.observation_model self (t, label)
  = Ok (Vector (map (fun i => nth (Z.to_nat label) cp 0 * nth i o 0
                              - dot (map (Rmult (nth (Z.to_nat label) cd 0)) o)
                                    (col i D))
                    (seq 0 (List.length o)))).
Proof.
  intros Hcp Hcd Hlp Hld Hobs Hdes Hrows Hcols.
  unfold Latent.observation_model.
  rewrite Hdes, Hobs, Hcp, Hcd. cbn [bind].
  rewrite !getitem_vector by assumption.
  cbn [bind mul binop matmul]. rewrite length_map, Hrows, Nat.eqb_refl.
  cbn [bind sub binop]. unfold broadcast_vec.
  rewrite !length_map, length_seq, Hcols, Nat.eqb_refl. cbn [bind].
  do 2 f_equal.
  rewrite <- (length_map (Rmult (nth (Z.to_nat label) cp 0)) o) at 1.
  rewrite zip_with_seq. rewrite length_map.
  apply map_ext_in. intros i Hi. apply in_seq in Hi.
  rewrite Nat.sub_0_r.
  rewrite (nth_indep _ 0 (nth (Z.to_nat label) cp 0 * 0))
    by (rewrite length_map; lia).
  now rewrite (map_nth (Rmult (nth (Z.to_nat label) cp 0))).
Qed.

(** X6.  For a wrapped kernel with [n] states, [Latent.observation_model]
    at [(t, label)] is
    [coeff_prim[label] * h - (coeff_deriv[label] * h) @ F], [h] being the
    wrapped kernel's observation model at [t] and [F] its design matrix:
    [h] is scaled by the coefficient first, and the product with [F] is
    taken of the scaled vector.  A design matrix whose number of rows is
    not the length of [h] is a [TypeError]. *)
Theorem latent_observation_model (self : Latent.t) (cp cd o : list R)
    (D : list (list R)) (t : R) (label : Z) :
  Latent.coeff_prim self = Vector cp ->
  Latent.coeff_deriv self = Vector cd ->
  (0 <= label < Z.of_nat (List.length cp))%Z ->
  (0 <= label < Z.of_nat (List.length cd))%Z ->
  observation_model (Latent.kernel_ self) t = Ok (Vector o) ->
  design_matrix (Latent.kernel_ self) = Ok (Matrix D) ->
  (List.length D = List.length o -> ncols D = List.length o ->
   Latent.observation_model self (t, label)
   = Ok (Vector (map (fun i => nth (Z.to_nat label) cp 0 * nth i o 0
                               - dot (map (Rmult (nth (Z.to_nat label) cd 0))
                                          o)
                                     (col i D))
                     (seq 0 (List.length o)))))
  /\ (List.length D <> List.length o ->
      Latent.observation_model self (t, label) = Raise TypeError).
Proof.
  intros Hcp Hcd Hlp Hld Hobs Hdes. split.
  - intros Hrows Hcols.
    now apply (latent_components self cp cd o D t label).
  - intro Hne. unfold Latent.observation_model.
    rewrite Hdes, Hobs, Hcp, Hcd. cbn [bind].
    rewrite !getitem_vector by assumption.
    cbn [bind mul binop matmul]. rewrite length_map.
    destruct (Nat.eqb_spec (List.length o) (List.length D)); [congruence|].
    reflexivity.
Qed.

Lemma latent_observation_model_witness :
  (List.length [[0; 1; 0]; [0; 0; 1]; [0; 0; 0]] = List.length [1; 0; 0] ->
   ncols [[0; 1; 0]; [0; 0; 1]; [0; 0; 0]] = List.length [1; 0; 0] ->
   Latent.observation_model
     {| Latent.kernel_ := example_kernel;
        Latent.coeff_prim := Vector [0.5; 0.02];
        Latent.coeff_deriv := Vector [0.01; -0.2] |} (2, 1%Z)
   = Ok (Vector (map (fun i =>
                        nth (Z.to_nat 1) [0.5; 0.02] 0 * nth i [1; 0; 0] 0
                        - dot (map (Rmult (nth (Z.to_nat 1) [0.01; -0.2] 0))
                                   [1; 0; 0])
                              (col i [[0; 1; 0]; [0; 0; 1]; [0; 0; 0]]))
                     (seq 0 (List.length [1; 0; 0])))))
  /\ (List.length [[0; 1; 0]; [0; 0; 1]; [0; 0; 0]] <> List.length [1; 0; 0] ->
      Latent.observation_model
        {| Latent.kernel_ := example_kernel;
           Latent.coeff_prim := Vector [0.5; 0.02];
           Latent.coeff_deriv := Vector [0.01; -0.2] |} (2, 1%Z)
      = Raise TypeError).
Proof.
  apply (latent_observation_model
           {| Latent.kernel_ := example_kernel;
              Latent.coeff_prim := Vector [0.5; 0.02];
              Latent.coeff_deriv := Vector [0.01; -0.2] |}
           [0.5; 0.02] [0.01; -0.2] [1; 0; 0]
           [[0; 1; 0]; [0; 0; 1]; [0; 0; 0]] 2 1);
    try reflexivity; simpl; lia.
Defined.

(** X7.  With [coeff_prim=[1, 0]] and [coeff_deriv=[0, 1]], as in
    [plot_latent_samples], an observation of class 0 has the observation
    model [h] of the wrapped kernel, and one of class 1 has [-(h @ F)]. *)
Theorem value_and_derivative_observes (k : kernel) (o : list R)
    (D : list (list R)) (t : R) :
  observation_model k t = Ok (Vector o) ->
  design_matrix k = Ok (Matrix D) ->
  List.length D = List.length o ->
  ncols D = List.length o ->
  Latent.observation_model (Latent.value_and_derivative k) (t, 0%Z)
    = Ok (Vector o)
  /\ Latent.observation_model (Latent.value_and_derivative k) (t, 1%Z)
    = Ok (Vector (map (fun i => - dot o (col i D)) (seq 0 (List.length o)))).
Proof.
  intros Hobs Hdes Hrows Hcols. split.
  - rewrite (latent_components (Latent.value_and_derivative k)
               [1; 0] [0; 1] o D t 0) by (try reflexivity; try assumption;
                                            simpl; lia).
    do 2 f_equal.
    transitivity (map (fun i => nth i o 0) (seq 0 (List.length o)));
      [|apply map_nth_seq].
    apply map_ext. intro i. cbn [Z.to_nat nth]. rewrite dot_scaled. ring.
  - rewrite (latent_components (Latent.value_and_derivative k)
               [1; 0] [0; 1] o D t 1) by (try reflexivity; try assumption;
                                            simpl; lia).
    do 2 f_equal. apply map_ext. intro i.
    change (Z.to_nat 1) with 1%nat. cbn [nth]. rewrite dot_scaled. ring.
Qed.

Lemma value_and_derivative_observes_witness :
  Latent.observation_model (Latent.value_and_derivative example_kernel)
    (2, 0%Z) = Ok (Vector [1; 0; 0])
  /\ Latent.observation_model (Latent.value_and_derivative example_kernel)
       (2, 1%Z)
     = Ok (Vector (map (fun i => - dot [1; 0; 0]
                                     (col i [[0; 1; 0]; [0; 0; 1]; [0; 0; 0]]))
                       (seq 0 (List.length [1; 0; 0])))).
Proof.
  apply (value_and_derivative_observes example_kernel [1; 0; 0]
           [[0; 1; 0]; [0; 0; 1]; [0; 0; 0]] 2); reflexivity.
Defined.

End LatentFacts.

(* ================================================================== *)
(** * More on the banded observation model *)
(* ================================================================== *)

Section BandwidthFacts.

Import Py Banded.
Local Open Scope R_scope.

(** ** What a Counter counts *)

Lemma counter_get_add (x y : Z) (c : list (Z * nat)) :
  counter_get (counter_add x c) y
  = (counter_get c y + if (x =? y)%Z then 1 else 0)%nat.
Proof.
  induction c as [|[z n] c IH]; simpl.
  - rewrite (Z.eqb_sym y x). destruct (x =? y)%Z; reflexivity.
  - destruct (Z.eqb_spec x z) as [->|Hxz]; simpl.
    + rewrite (Z.eqb_sym y z).
      destruct (Z.eqb_spec z y); lia.
    + destruct (Z.eqb_spec y z) as [->|Hyz].
      * destruct (Z.eqb_spec x z); [contradiction|lia].
      * exact IH.
Qed.

Lemma counter_add_le (x : Z) (c : list (Z * nat)) (f : Z -> nat) :
  Forall (fun p => (snd p <= f (fst p))%nat) c ->
  Forall (fun p => (snd p <= f (fst p) + if (x =? fst p)%Z then 1 else 0)%nat)
         (counter_add x c).
Proof.
  induction 1 as [|[z n] c Hz Hc IH]; simpl.
  - constructor; [|constructor]. simpl. rewrite Z.eqb_refl. lia.
  - simpl in Hz. destruct (Z.eqb_spec x z) as [->|Hxz].
    + constructor; [simpl; rewrite Z.eqb_refl; lia|].
      eapply Forall_impl; [|exact Hc]. simpl. intros; lia.
    + constructor; [simpl; lia|exact IH].
Qed.

Lemma count_occ_snoc (p : list Z) (x y : Z) :
  count_occ Z.eq_dec (p ++ [x]) y
  = (count_occ Z.eq_dec p y + if (x =? y)%Z then 1 else 0)%nat.
Proof.
  rewrite count_occ_app. simpl.
  destruct (Z.eq_dec x y), (Z.eqb_spec x y); try contradiction; lia.
Qed.

(** While a Counter is filled it holds, for each value met so far, the
    number of times the value was met. *)
Lemma counter_fold_counts (l p : list Z) (c : list (Z * nat)) :
  (forall y, counter_get c y = multiplicity p y) ->
  Forall (fun e => (snd e <= multiplicity p (fst e))%nat) c ->
  (forall y, counter_get (fold_left (fun c x => counter_add x c) l c) y
             = multiplicity (p ++ l) y)
  /\ Forall (fun e => (snd e <= multiplicity (p ++ l) (fst e))%nat)
            (fold_left (fun c x => counter_add x c) l c).
Proof.
  revert p c; induction l as [|x l IH]; intros p c Hget Hle.
  - rewrite app_nil_r. split; assumption.
  - cbn [fold_left].
    replace (p ++ x :: l) with ((p ++ [x]) ++ l)
      by (now rewrite <- app_assoc).
    apply IH.
    + intro y. unfold multiplicity in *.
      now rewrite counter_get_add, count_occ_snoc, Hget.
    + eapply Forall_impl; [|apply (counter_add_le x c _ Hle)].
      intros e He. unfold multiplicity in *. cbn beta in He.
      now rewrite count_occ_snoc.
Qed.

Lemma Counter_counts (l : list Z) :
  (forall y, counter_get (Counter l) y = multiplicity l y)
  /\ Forall (fun e => (snd e <= multiplicity l (fst e))%nat) (Counter l).
Proof.
  apply (counter_fold_counts l [] []); [reflexivity|constructor].
Qed.

Lemma counter_get_In (c : list (Z * nat)) (y : Z) :
  (0 < counter_get c y)%nat -> In (y, counter_get c y) c.
Proof.
  induction c as [|[z n] c IH]; simpl; [lia|].
  destruct (Z.eqb_spec y z) as [->|Hne]; auto.
Qed.

(** ** The maximum *)

Lemma fold_max_ge (l : list Z) (x : Z) :
  (x <= fold_left Z.max l x)%Z
  /\ Forall (fun y => (y <= fold_left Z.max l x)%Z) l.
Proof.
  revert x; induction l as [|y l IH]; intro x; simpl.
  - split; [lia|constructor].
  - destruct (IH (Z.max x y)) as [H1 H2]. split; [lia|].
    constructor; [lia|exact H2].
Qed.

Lemma fold_max_In (l : list Z) (x : Z) :
  In (fold_left Z.max l x) (x :: l).
Proof.
  revert x; induction l as [|y l IH]; intro x; simpl; [auto|].
  destruct (IH (Z.max x y)) as [H|H]; [|right; right; exact H].
  destruct (Z.max_spec x y) as [[_ E]|[_ E]].
  - right; left. rewrite <- E at 1. exact H.
  - left. rewrite <- E at 1. exact H.
Qed.

(** The bandwidth is one less than the largest number of observations
    that share a calibration. *)
Lemma bandwidth_multiplicity (calib_id : list Z) :
  calib_id <> [] ->
  exists bw : nat,
    bandwidth calib_id = Ok (Z.of_nat bw)
    /\ (forall x, (multiplicity calib_id x <= bw + 1)%nat)
    /\ (exists x, In x calib_id /\ multiplicity calib_id x = (bw + 1)%nat).
Proof.
  intro Hne.
  destruct (Counter_counts calib_id) as [Hget Hle].
  destruct (Counter_total calib_id) as [Htot Hpos].
  unfold bandwidth.
  destruct (Counter calib_id) as [|[y n] c] eqn:E.
  - simpl in Htot. destruct calib_id; [congruence|discriminate].
  - unfold values. cbn [map py_max bind snd]. fold (values c).
    set (M := fold_left Z.max (values c) (Z.of_nat n)).
    destruct (fold_max_ge (values c) (Z.of_nat n)) as [Hn Hall].
    fold M in Hn, Hall.
    assert (Hvals : forall e, In e ((y, n) :: c) -> (Z.of_nat (snd e) <= M)%Z).
    { intros e [<-|He]; [exact Hn|].
      rewrite Forall_forall in Hall. apply Hall.
      unfold values. now apply (in_map (fun p => Z.of_nat (snd p))). }
    assert (Hmax : exists e, In e ((y, n) :: c) /\ M = Z.of_nat (snd e)).
    { destruct (fold_max_In (values c) (Z.of_nat n)) as [H|H]; fold M in H.
      - exists (y, n). split; [left; reflexivity|now symmetry].
      - unfold values in H. apply in_map_iff in H as (e & He & Hin).
        exists e. split; [right; exact Hin|now symmetry]. }
    destruct Hmax as (e & Hin & HM).
    assert (Hpe : (1 <= snd e)%nat).
    { rewrite Forall_forall in Hpos. now apply Hpos. }
    assert (Hee : (snd e <= multiplicity calib_id (fst e))%nat).
    { rewrite Forall_forall in Hle. now apply Hle. }
    assert (Hbound : forall x, (Z.of_nat (multiplicity calib_id x) <= M)%Z).
    { intro x. rewrite <- Hget.
      destruct (Nat.eq_dec (counter_get ((y, n) :: c) x) 0) as [->|Hnz];
        [lia|].
      apply (Hvals (x, counter_get ((y, n) :: c) x)).
      apply counter_get_In. lia. }
    exists (snd e - 1)%nat. split; [f_equal; lia|]. split.
    + intro x. specialize (Hbound x). lia.
    + exists (fst e). specialize (Hbound (fst e)). split.
      * unfold multiplicity in Hee. apply (count_occ_In Z.eq_dec). lia.
      * lia.
Qed.

(** X8.  [bandwidth] is one less than the largest number of observations
    sharing a calibration: no calibration has more than [bandwidth + 1]
    observations and some calibration has exactly that many.  For an
    empty [calib_id] the [max] raises [ValueError], and so does the
    cell. *)
Theorem bandwidth_is_largest_calibration (calib_id : list Z) :
  (calib_id = [] ->
   bandwidth calib_id = Raise ValueError
   /\ forall nt caliberr, off_diags nt calib_id caliberr = Raise ValueError)
  /\ (calib_id <> [] ->
      exists bw : nat,
        bandwidth calib_id = Ok (Z.of_nat bw)
        /\ (forall x, (multiplicity calib_id x <= bw + 1)%nat)
        /\ (exists x, In x calib_id
                      /\ multiplicity calib_id x = (bw + 1)%nat)).
Proof.
  split.
  - intros ->. split; reflexivity.
  - apply bandwidth_multiplicity.
Qed.

(** X9.  The observation model has no off-diagonal at all exactly when
    no two observations share a calibration: then [bandwidth] is 0 and
    [off_diags] is the array of [nt] empty rows, whatever [caliberr]
    holds. *)
Theorem off_diags_without_shared_calibration (calib_id : list Z) :
  calib_id <> [] ->
  (NoDup calib_id <-> bandwidth calib_id = Ok 0%Z)
  /\ (NoDup calib_id ->
      forall nt caliberr,
        off_diags nt calib_id caliberr = zeros nt 0
        /\ ((0 <= nt)%Z ->
            off_diags nt calib_id caliberr
            = Ok {| ncols := 0; rows := repeat [] (Z.to_nat nt) |})).
Proof.
  intro Hne.
  destruct (bandwidth_multiplicity calib_id Hne) as (bw & Hbw & Hle & x & Hx & Hmax).
  assert (Hiff : NoDup calib_id <-> bw = 0%nat).
  { rewrite (NoDup_count_occ Z.eq_dec). split.
    - intro H. specialize (H x). unfold multiplicity in Hmax. lia.
    - intros -> y. specialize (Hle y). unfold multiplicity in Hle. lia. }
  split.
  - rewrite Hiff, Hbw. split; [intros ->; reflexivity|].
    intros [= H]. lia.
  - intros Hnd nt caliberr. apply Hiff in Hnd. subst bw.
    assert (Hz : off_diags nt calib_id caliberr = zeros nt 0).
    { unfold off_diags. rewrite Hbw. cbn [bind Z.of_nat range Z.to_nat seq map].
      destruct (zeros nt 0); reflexivity. }
    split; [exact Hz|].
    intro Hnt. rewrite Hz. unfold zeros.
    destruct (Z.ltb_spec nt 0); [lia|]. reflexivity.
Qed.

Lemma off_diags_without_shared_calibration_witness :
  (NoDup [0; 1; 2; 4]%Z <-> bandwidth [0; 1; 2; 4]%Z = Ok 0%Z)
  /\ (NoDup [0; 1; 2; 4]%Z ->
      forall nt caliberr,
        off_diags nt [0; 1; 2; 4]%Z caliberr = zeros nt 0
        /\ ((0 <= nt)%Z ->
            off_diags nt [0; 1; 2; 4]%Z caliberr
            = Ok {| ncols := 0; rows := repeat [] (Z.to_nat nt) |})).
Proof.
  apply (off_diags_without_shared_calibration [0; 1; 2; 4]%Z).
  discriminate.
Defined.

(** ** Sorted calibrations *)

Lemma nth_sorted (l : list Z) (i k : nat) :
  Sorted Z.le l -> (i <= k < List.length l)%nat ->
  (nth i l 0 <= nth k l 0)%Z.
Proof.
  intro Hs. apply Sorted_StronglySorted in Hs;
    [|intros a b c; apply Z.le_trans].
  revert i k; induction Hs as [|x l Hl IH Hx]; intros i k Hik;
    simpl in Hik; [lia|].
  destruct i as [|i], k as [|k]; simpl; try lia.
  - rewrite Forall_forall in Hx. apply Hx, nth_In. lia.
  - apply IH. lia.
Qed.

Lemma count_occ_run (l : list Z) (v : Z) (i k : nat) :
  (i <= k < List.length l)%nat ->
  (forall j, (i <= j <= k)%nat -> nth j l 0%Z = v) ->
  (k - i + 1 <= count_occ Z.eq_dec l v)%nat.
Proof.
  revert i k; induction l as [|x l IH]; intros i k Hik Hrun;
    simpl in Hik; [lia|].
  simpl. destruct i as [|i].
  - assert (Hx : x = v) by (apply (Hrun 0%nat); lia).
    destruct (Z.eq_dec x v); [|contradiction].
    destruct k as [|k]; [lia|].
    assert (H := IH 0%nat k ltac:(lia)
                   (fun j Hj => Hrun (S j) ltac:(lia))).
    lia.
  - destruct k as [|k]; [lia|].
    assert (H := IH i k ltac:(lia) (fun j Hj => Hrun (S j) ltac:(lia))).
    destruct (Z.eq_dec x v); lia.
Qed.

(** Two observations of one calibration are less than [bandwidth + 1]
    apart when the calibrations are sorted. *)
Lemma same_calibration_in_band (calib_id : list Z) (bw i k : nat) :
  Sorted Z.le calib_id ->
  bandwidth calib_id = Ok (Z.of_nat bw) ->
  (i < k < List.length calib_id)%nat ->
  nth i calib_id 0%Z = nth k calib_id 0%Z ->
  (k - i - 1 < bw)%nat.
Proof.
  intros Hs Hbw Hik Heq.
  assert (Hne : calib_id <> []) by (intros ->; simpl in Hik; lia).
  destruct (bandwidth_multiplicity calib_id Hne) as (bw' & Hbw' & Hle & _).
  rewrite Hbw in Hbw'. injection Hbw' as Hbw'. apply Nat2Z.inj in Hbw'.
  subst bw'.
  specialize (Hle (nth i calib_id 0%Z)). unfold multiplicity in Hle.
  assert (Hrun : (k - i + 1 <= count_occ Z.eq_dec calib_id (nth i calib_id 0%Z))%nat).
  { apply count_occ_run; [lia|]. intros j Hj.
    assert (H1 := nth_sorted calib_id i j Hs ltac:(lia)).
    assert (H2 := nth_sorted calib_id j k Hs ltac:(lia)).
    lia. }
  lia.
Qed.

(** X10.  For sorted calibrations the band holds the whole of every
    block: two observations [i < k] of one calibration are within the
    bandwidth and entry [(i, k - i - 1)] is that calibration's
    [caliberr**2]; an entry of the band that joins observations of two
    calibrations is 0. *)
Theorem off_diags_covers_blocks (nt : Z) (calib_id : list Z)
    (caliberr : list R) :
  nt = Z.of_nat (List.length calib_id) ->
  calib_id <> [] ->
  Forall (in_range (List.length caliberr)) calib_id ->
  Sorted Z.le calib_id ->
  exists a : array2,
    off_diags nt calib_id caliberr = Ok a
    /\ (forall i k, (i < k < List.length calib_id)%nat ->
          nth i calib_id 0%Z = nth k calib_id 0%Z ->
          (k - i - 1 < ncols a)%nat
          /\ entry a i (k - i - 1)
             = nth (Z.to_nat (nth i calib_id 0%Z)) caliberr 0 ^ 2)
    /\ (forall i k, (i < k < List.length calib_id)%nat ->
          (k - i - 1 < ncols a)%nat ->
          nth i calib_id 0%Z <> nth k calib_id 0%Z ->
          entry a i (k - i - 1) = 0).
Proof.
  intros -> Hne Hrange Hs.
  destruct (bandwidth_bounds calib_id Hne) as (bw & Hbw & Hlt).
  destruct (zeros_written calib_id caliberr bw) as (z & Hz & Hz0).
  destruct (for_each_written calib_id caliberr Hrange bw bw 0 z Hlt eq_refl Hz0)
    as (a & Ha & (Hcols & Hrows & Hlen & Hent)).
  exists a. split.
  { unfold off_diags. rewrite Hbw. cbn [bind]. rewrite Hz. cbn [bind].
    unfold range. rewrite Nat2Z.id. exact Ha. }
  assert (Hall : forall i k, (i < k < List.length calib_id)%nat ->
            (k - i - 1 < bw)%nat ->
            entry a i (k - i - 1)
            = if (nth i calib_id 0 =? nth k calib_id 0)%Z
              then nth (Z.to_nat (nth i calib_id 0%Z)) caliberr 0 ^ 2
              else 0).
  { intros i k Hik Hband.
    rewrite (Hent i (k - i - 1)%nat) by lia.
    destruct (Nat.ltb_spec (k - i - 1) bw); [|lia].
    unfold coupling.
    replace (i + (k - i - 1) + 1)%nat with k by lia.
    destruct (Nat.ltb_spec k (List.length calib_id)); [|lia].
    reflexivity. }
  rewrite Hcols. split.
  - intros i k Hik Heq.
    assert (Hband := same_calibration_in_band calib_id bw i k Hs Hbw Hik Heq).
    split; [exact Hband|].
    rewrite (Hall i k Hik Hband), Heq, Z.eqb_refl. now rewrite <- Heq.
  - intros i k Hik Hband Hneq.
    rewrite (Hall i k Hik Hband).
    destruct (Z.eqb_spec (nth i calib_id 0%Z) (nth k calib_id 0%Z));
      [contradiction|reflexivity].
Qed.

Lemma off_diags_covers_blocks_witness :
  exists a : array2,
    off_diags 6 [0; 0; 1; 1; 1; 2]%Z [3; 5; 7] = Ok a
    /\ (forall i k, (i < k < 6)%nat ->
          nth i [0; 0; 1; 1; 1; 2]%Z 0%Z = nth k [0; 0; 1; 1; 1; 2]%Z 0%Z ->
          (k - i - 1 < ncols a)%nat
          /\ entry a i (k - i - 1)
             = nth (Z.to_nat (nth i [0; 0; 1; 1; 1; 2]%Z 0%Z)) [3; 5; 7] 0 ^ 2)
    /\ (forall i k, (i < k < 6)%nat ->
          (k - i - 1 < ncols a)%nat ->
          nth i [0; 0; 1; 1; 1; 2]%Z 0%Z <> nth k [0; 0; 1; 1; 1; 2]%Z 0%Z ->
          entry a i (k - i - 1) = 0).
Proof.
  apply (off_diags_covers_blocks 6 [0; 0; 1; 1; 1; 2]%Z [3; 5; 7]).
  - reflexivity.
  - discriminate.
  - repeat constructor; unfold in_range; simpl; lia.
  - repeat constructor; lia.
Defined.

End BandwidthFacts.

(* ================================================================== *)
(** * Properties of the simulated data *)
(* ================================================================== *)

Section DataFacts.

Import Py Banded Data.
Local Open Scope R_scope.

(** ** Masks keep order and pairing *)

Lemma select_combine {A B} (a : list A) (b : list B) (m : list bool) :
  combine (select a m) (select b m) = select (combine a b) m.
Proof.
  revert b m; induction a as [|x a IH]; intros [|y b] [|c m]; simpl;
    try reflexivity.
  - destruct c; simpl; [now destruct (select a m)|apply combine_nil].
  - destruct c; simpl; now rewrite IH.
Qed.

Lemma select_In {A} (a : list A) (m : list bool) (x : A) :
  In x (select a m) -> In x a.
Proof.
  revert m; induction a as [|y a IH]; intros [|c m]; simpl; try tauto.
  destruct c; simpl; intros H; [destruct H|]; eauto.
Qed.

Lemma select_sorted (a : list R) (m : list bool) :
  Sorted Rle a -> Sorted Rle (select a m).
Proof.
  intro Hs. apply Sorted_StronglySorted in Hs;
    [|intros x y z; apply Rle_trans].
  apply StronglySorted_Sorted.
  revert m; induction Hs as [|x a Ha IH Hx]; intros [|c m]; simpl;
    try constructor.
  destruct c; [|apply IH].
  constructor; [apply IH|].
  rewrite Forall_forall in *. intros y Hy. eapply Hx, select_In, Hy.
Qed.

Lemma np_binop_same_length {A B C} (f : A -> B -> C) (da : A) (db : B)
    (a : list A) (b : list B) :
  List.length a = List.length b ->
  np_binop f da db a b = Ok (map (fun p => f (fst p) (snd p)) (combine a b)).
Proof.
  intro H. unfold np_binop, broadcast_binop. now rewrite H, Nat.eqb_refl.
Qed.

Lemma jnp_binop_same_length {A B C} (f : A -> B -> C) (da : A) (db : B)
    (a : list A) (b : list B) :
  List.length a = List.length b ->
  jnp_binop f da db a b = Ok (map (fun p => f (fst p) (snd p)) (combine a b)).
Proof.
  intro H. unfold jnp_binop, broadcast_binop. now rewrite H, Nat.eqb_refl.
Qed.

Lemma combine_map_r {A B C} (g : B -> C) (a : list A) (b : list B) :
  combine a (map g b) = map (fun p => (fst p, g (snd p))) (combine a b).
Proof.
  revert b; induction a as [|x a IH]; intros [|y b]; simpl; try reflexivity.
  now rewrite IH.
Qed.

(** X11.  With a mask of the length of the data, the observed subset is
    the data under the mask: the times, the labels and the values of the
    process are taken at the same positions, so an observed time keeps
    its label and its value; there are as many as the mask has [True];
    the observed times are sorted when the times are, as the
    quasiseparable solver needs; and each observed value is the value of
    the process there plus 0.1 times the draw of the noise at its
    position.  A draw of another length, neither side having one
    element, is a [TypeError], and a mask of another length than the data
    an [IndexError]. *)
Theorem observed_subset_is_aligned (t : list R) (label : list Z)
    (y noise : list R) (m : list bool) :
  List.length label = List.length t ->
  List.length y = List.length t ->
  (List.length m = List.length t ->
   X_obs (t, label) m = Ok (select t m, select label m)
   /\ List.length (select t m) = count_true m
   /\ combine (select t m) (combine (select label m) (select y m))
      = select (combine t (combine label y)) m
   /\ (Sorted Rle t -> Sorted Rle (select t m))
   /\ (List.length noise = count_true m ->
       y_obs y m noise
       = Ok (map (fun p => fst p + 0.1 * snd p)
                 (combine (select y m) noise)))
   /\ (List.length noise <> count_true m ->
       List.length noise <> 1%nat -> count_true m <> 1%nat ->
       y_obs y m noise = Raise TypeError))
  /\ (List.length m <> List.length t ->
      X_obs (t, label) m = Raise IndexError
      /\ y_obs y m noise = Raise IndexError).
Proof.
  intros Hl Hy. split.
  - intro Hm.
    assert (Hys : List.length (select y m) = count_true m)
      by (apply select_length; congruence).
    unfold X_obs, y_obs, mask_select. cbn [fst snd].
    rewrite Hl, Hy, Hm, Nat.eqb_refl. cbn [bind].
    split; [reflexivity|].
    split; [apply select_length; congruence|].
    split; [now rewrite !select_combine|].
    split; [apply select_sorted|].
    split.
    + intro Hn.
      rewrite jnp_binop_same_length by (rewrite length_map; congruence).
      rewrite combine_map_r, map_map. reflexivity.
    + intros Hn Hn1 Hc1. unfold jnp_binop, broadcast_binop.
      rewrite length_map, Hys.
      destruct (Nat.eqb_spec (count_true m) (List.length noise));
        [congruence|].
      destruct (Nat.eqb_spec (count_true m) 1); [contradiction|].
      destruct (Nat.eqb_spec (List.length noise) 1); [contradiction|].
      reflexivity.
  - intro Hne. unfold X_obs, y_obs, mask_select. cbn [fst snd].
    rewrite Hy.
    destruct (Nat.eqb_spec (List.length t) (List.length m)); [congruence|].
    split; reflexivity.
Qed.

Lemma observed_subset_is_aligned_witness :
  (List.length [true; false; true] = List.length [1; 2; 4] ->
   X_obs ([1; 2; 4], [0; 1; 1]%Z) [true; false; true]
   = Ok (select [1; 2; 4] [true; false; true],
         select [0; 1; 1]%Z [true; false; true])
   /\ List.length (select [1; 2; 4] [true; false; true])
      = count_true [true; false; true]
   /\ combine (select [1; 2; 4] [true; false; true])
              (combine (select [0; 1; 1]%Z [true; false; true])
                       (select [5; 6; 7] [true; false; true]))
      = select (combine [1; 2; 4] (combine [0; 1; 1]%Z [5; 6; 7]))
               [true; false; true]
   /\ (Sorted Rle [1; 2; 4] -> Sorted Rle (select [1; 2; 4] [true; false; true]))
   /\ (List.length [0.5; -1] = count_true [true; false; true] ->
       y_obs [5; 6; 7] [true; false; true] [0.5; -1]
       = Ok (map (fun p => fst p + 0.1 * snd p)
                 (combine (select [5; 6; 7] [true; false; true]) [0.5; -1])))
   /\ (List.length [0.5; -1] <> count_true [true; false; true] ->
       List.length [0.5; -1] <> 1%nat ->
       count_true [true; false; true] <> 1%nat ->
       y_obs [5; 6; 7] [true; false; true] [0.5; -1] = Raise TypeError))
  /\ (List.length [true; false; true] <> List.length [1; 2; 4] ->
      X_obs ([1; 2; 4], [0; 1; 1]%Z) [true; false; true] = Raise IndexError
      /\ y_obs [5; 6; 7] [true; false; true] [0.5; -1] = Raise IndexError).
Proof.
  apply (observed_subset_is_aligned [1; 2; 4] [0; 1; 1]%Z [5; 6; 7] [0.5; -1]
           [true; false; true]); reflexivity.
Defined.

(** A draw of three numbers for two observations. *)
Example y_obs_noise_mismatch :
  y_obs [5; 6; 7] [true; false; true] [0; 0; 0] = Raise TypeError.
Proof. reflexivity. Qed.

(** X12.  An observation of class 0 is kept when its draw is below 0.3,
    one of class 1 when its draw is below 0.1. *)
Theorem subset_thresholds (label : list Z) (u : list R) :
  List.length label = List.length u ->
  exists m,
    subset label u = Ok m
    /\ List.length m = List.length u
    /\ forall i, (i < List.length u)%nat ->
         (nth i label 0%Z = 0%Z -> (nth i m false = true <-> nth i u 0 < 0.3))
         /\ (nth i label 0%Z = 1%Z ->
             (nth i m false = true <-> nth i u 0 < 0.1)).
Proof.
  intro Hlen. unfold subset.
  rewrite np_binop_same_length by exact Hlen. cbn [bind].
  eexists; split; [reflexivity|]. split.
  - rewrite !length_map, length_combine. lia.
  - intros i Hi. rewrite map_map.
    set (f := fun p : Z * R => Rltb ((1 + 2 * IZR (fst p)) * snd p) 0.3).
    rewrite (nth_indep _ false (f (0%Z, 0)))
      by (rewrite length_map, length_combine; lia).
    rewrite (map_nth f), combine_nth by exact Hlen.
    unfold f, Rltb. cbn [fst snd].
    split; intros ->; destruct (Rlt_dec _ _) as [H|H];
      split; intro H'; try reflexivity; try discriminate; lra.
Qed.

Lemma subset_thresholds_witness :
  exists m,
    subset [0; 1]%Z [0.2; 0.2] = Ok m
    /\ List.length m = List.length [0.2; 0.2]
    /\ forall i, (i < List.length [0.2; 0.2]%R)%nat ->
         (nth i [0; 1]%Z 0%Z = 0%Z ->
          (nth i m false = true <-> nth i [0.2; 0.2] 0 < 0.3))
         /\ (nth i [0; 1]%Z 0%Z = 1%Z ->
             (nth i m false = true <-> nth i [0.2; 0.2] 0 < 0.1)).
Proof. apply (subset_thresholds [0; 1]%Z [0.2; 0.2]). reflexivity. Defined.

(** ** Sorting *)

Lemma insert_length (x : R) (l : list R) :
  List.length (insert x l) = S (List.length l).
Proof.
  induction l as [|y l IH]; simpl; [reflexivity|].
  destruct (Rle_dec x y); simpl; [reflexivity|now rewrite IH].
Qed.

Lemma np_sort_length (l : list R) : List.length (np_sort l) = List.length l.
Proof.
  induction l as [|x l IH]; simpl; [reflexivity|].
  now rewrite insert_length, IH.
Qed.

Lemma insert_Forall (P : R -> Prop) (x : R) (l : list R) :
  P x -> Forall P l -> Forall P (insert x l).
Proof.
  intros Hx Hl; induction Hl as [|y l Hy Hl IH]; simpl.
  - repeat constructor; exact Hx.
  - destruct (Rle_dec x y); repeat constructor; assumption.
Qed.

Lemma np_sort_Forall (P : R -> Prop) (l : list R) :
  Forall P l -> Forall P (np_sort l).
Proof.
  induction 1 as [|x l Hx Hl IH]; simpl; [constructor|].
  now apply insert_Forall.
Qed.

Lemma insert_HdRel (y x : R) (l : list R) :
  y <= x -> HdRel Rle y l -> HdRel Rle y (insert x l).
Proof.
  intros Hyx Hl. destruct l as [|z l]; simpl; [now constructor|].
  destruct (Rle_dec x z); constructor; [exact Hyx|].
  now inversion Hl.
Qed.

Lemma insert_sorted (x : R) (l : list R) :
  Sorted Rle l -> Sorted Rle (insert x l).
Proof.
  induction 1 as [|y l Hl IH Hy]; simpl.
  - repeat constructor.
  - destruct (Rle_dec x y) as [Hxy|Hxy].
    + constructor; [now constructor|now constructor].
    + constructor; [exact IH|]. apply insert_HdRel; [lra|exact Hy].
Qed.

Lemma np_sort_sorted (l : list R) : Sorted Rle (np_sort l).
Proof.
  induction l as [|x l IH]; simpl; [constructor|]. now apply insert_sorted.
Qed.

Lemma floor_sorted (t : list R) :
  Sorted Rle t -> Sorted Z.le (map Zfloor t).
Proof.
  induction 1 as [|x t Ht IH Hx]; simpl; constructor.
  - exact IH.
  - destruct Hx as [|y t Hxy]; simpl; constructor. now apply Zfloor_le.
Qed.

Lemma astype_int_in_range (z : Z) :
  (- 2 ^ 63 <= z < 2 ^ 63)%Z -> astype_int z = z.
Proof.
  intros [Hlo Hhi]. unfold astype_int.
  destruct (Z.leb_spec (- 2 ^ 63) z); [|lia].
  destruct (Z.ltb_spec z (2 ^ 63)); [reflexivity|lia].
Qed.

(** A number too large for 64 bits. *)
Example astype_int_out_of_range :
  astype_int (10 ^ 300) = (- 9223372036854775808)%Z.
Proof. reflexivity. Qed.

Lemma floor_bounds (x : R) (lo hi : Z) :
  IZR lo <= x <= IZR hi -> (lo <= Zfloor x <= hi)%Z.
Proof.
  intros [Hlo Hhi]. split.
  - now apply Zfloor_lub.
  - apply le_IZR. destruct (Zfloor_bound x). lra.
Qed.

(** For times from 0 to [tmax] the conversion to integers is exact. *)
Lemma calib_id_floor (t : list R) :
  Forall (fun x => 0 <= x <= tmax) t ->
  calib_id t = map Zfloor t
  /\ Forall (fun c => (0 <= c <= 20)%Z) (calib_id t).
Proof.
  unfold calib_id, tmax. induction 1 as [|x t Hx Ht [IH1 IH2]]; simpl.
  - split; constructor.
  - assert (Hf : (0 <= Zfloor x <= 20)%Z) by now apply floor_bounds.
    rewrite astype_int_in_range by lia. split.
    + now rewrite IH1.
    + constructor; assumption.
Qed.

Lemma last_item_nonempty (a : list Z) :
  a <> [] -> last_item a = Ok (nth (List.length a - 1) a 0%Z).
Proof.
  intro Hne. unfold last_item, index.
  assert (0 < List.length a)%nat by (destruct a; [congruence|simpl; lia]).
  destruct (Z.leb_spec 0 (-1)); [lia|]. cbn [andb].
  destruct (Z.leb_spec (- Z.of_nat (List.length a)) (-1)); [|lia].
  cbn [andb Z.ltb Z.compare bind].
  do 2 f_equal. lia.
Qed.

(** The cell on well-formed data: it ends with the array the loop
    invariant describes. *)
Lemma off_diags_written (nt : Z) (c : list Z) (caliberr : list R) :
  nt = Z.of_nat (List.length c) ->
  c <> [] ->
  Forall (in_range (List.length caliberr)) c ->
  exists (bw : nat) (a : array2),
    bandwidth c = Ok (Z.of_nat bw)
    /\ off_diags nt c caliberr = Ok a
    /\ written c caliberr bw bw a.
Proof.
  intros -> Hne Hrange.
  destruct (bandwidth_bounds c Hne) as (bw & Hbw & Hlt).
  destruct (zeros_written c caliberr bw) as (z & Hz & Hz0).
  destruct (for_each_written c caliberr Hrange bw bw 0 z Hlt eq_refl Hz0)
    as (a & Ha & Hw).
  exists bw, a. split; [exact Hbw|]. split; [|exact Hw].
  unfold off_diags. rewrite Hbw. cbn [bind]. rewrite Hz. cbn [bind].
  unfold range. rewrite Nat2Z.id. exact Ha.
Qed.

(** X14.  The simulated data fit the cell that builds [off_diags]: for
    [nt >= 1] and whatever numbers the generator draws between bounds
    from 0 to [tmax] (as [tmax / 3] and [2 * tmax / 3] are, however they
    are rounded), a draw possibly being its upper bound, there are [nt]
    sorted times, their calibrations are sorted and lie in
    [0 .. calib_id[-1]], [caliberr] is drawn with one entry per such
    calibration (at most 21, for a time may be [tmax] itself), and the
    cell runs without an error. *)
Theorem simulated_calibrations_are_well_formed (nt : Z)
    (lo1 hi1 lo2 hi2 : R) (first second : list R) :
  (1 <= nt)%Z ->
  0 <= lo1 -> hi1 <= tmax -> 0 <= lo2 -> hi2 <= tmax ->
  uniform_draw lo1 hi1 (fst (sizes nt)) first ->
  uniform_draw lo2 hi2 (snd (sizes nt)) second ->
  Z.of_nat (List.length (times first second)) = nt
  /\ Sorted Rle (times first second)
  /\ Sorted Z.le (calib_id (times first second))
  /\ exists size,
       caliberr_size (calib_id (times first second)) = Ok size
       /\ (1 <= size <= 21)%Z
       /\ forall caliberr,
            uniform_draw 0.5 1.5 size caliberr ->
            Forall (in_range (List.length caliberr))
                   (calib_id (times first second))
            /\ exists a,
                 off_diags nt (calib_id (times first second)) caliberr = Ok a
                 /\ List.length (rows a) = Z.to_nat nt.
Proof.
  intros Hnt Hlo1 Hhi1 Hlo2 Hhi2 (Hs1 & Hl1 & Hv1) (Hs2 & Hl2 & Hv2).
  unfold sizes in *. cbn [fst snd] in *.
  set (t := times first second).
  assert (Hlen : Z.of_nat (List.length t) = nt).
  { unfold t, times. rewrite np_sort_length, length_app, Hl1, Hl2.
    rewrite Nat2Z.inj_add, !Z2Nat.id by assumption.
    Z.div_mod_to_equations. lia. }
  assert (Hval : Forall (fun x => 0 <= x <= tmax) t).
  { unfold t, times. apply np_sort_Forall, Forall_app. split.
    - eapply Forall_impl; [|exact Hv1]. cbn beta. intros; lra.
    - eapply Forall_impl; [|exact Hv2]. cbn beta. intros; lra. }
  destruct (calib_id_floor t Hval) as [Hfloor Hcv].
  assert (Hsorted : Sorted Rle t) by apply np_sort_sorted.
  assert (Hcs : Sorted Z.le (calib_id t))
    by (rewrite Hfloor; now apply floor_sorted).
  assert (Hcl : List.length (calib_id t) = List.length t)
    by apply length_map.
  assert (Hne : calib_id t <> []).
  { intro E. rewrite E in Hcl. simpl in Hcl. lia. }
  split; [exact Hlen|]. split; [exact Hsorted|]. split; [exact Hcs|].
  set (last := nth (List.length (calib_id t) - 1) (calib_id t) 0%Z).
  assert (Hlast : (0 <= last <= 20)%Z).
  { rewrite Forall_forall in Hcv. apply Hcv, nth_In. lia. }
  exists (last + 1)%Z. split.
  { unfold caliberr_size. now rewrite (last_item_nonempty _ Hne). }
  split; [lia|].
  intros caliberr (_ & Hle & _).
  assert (Hrange : Forall (in_range (List.length caliberr)) (calib_id t)).
  { apply Forall_forall. intros c Hc.
    destruct (In_nth _ _ 0%Z Hc) as (i & Hi & <-).
    assert (H0 : (0 <= nth i (calib_id t) 0)%Z).
    { rewrite Forall_forall in Hcv. apply Hcv, nth_In, Hi. }
    assert (Hk : (i <= List.length (calib_id t) - 1 < List.length (calib_id t))%nat)
      by lia.
    assert (H1 := nth_sorted (calib_id t) i (List.length (calib_id t) - 1)
                    Hcs Hk).
    fold last in H1. unfold in_range. rewrite Hle. lia. }
  split; [exact Hrange|].
  destruct (off_diags_written nt (calib_id t) caliberr) as (bw & a & _ & Ha & Hw);
    [lia|exact Hne|exact Hrange|].
  exists a. split; [exact Ha|].
  destruct Hw as (_ & Hrows & _). lia.
Qed.

(** X14 on three times, the last of them [tmax] itself: 21 calibration
    errors are drawn. *)
Lemma simulated_calibrations_are_well_formed_witness :
  Z.of_nat (List.length (times [1] [14; 20])) = 3%Z
  /\ Sorted Rle (times [1] [14; 20])
  /\ Sorted Z.le (calib_id (times [1] [14; 20]))
  /\ exists size,
       caliberr_size (calib_id (times [1] [14; 20])) = Ok size
       /\ (1 <= size <= 21)%Z
       /\ forall caliberr,
            uniform_draw 0.5 1.5 size caliberr ->
            Forall (in_range (List.length caliberr))
                   (calib_id (times [1] [14; 20]))
            /\ exists a,
                 off_diags 3 (calib_id (times [1] [14; 20])) caliberr = Ok a
                 /\ List.length (rows a) = Z.to_nat 3.
Proof.
  apply (simulated_calibrations_are_well_formed 3
           0 (tmax / 3) (2 * tmax / 3) tmax [1] [14; 20]);
    try (unfold tmax; lra).
  - lia.
  - unfold uniform_draw, sizes, tmax; cbn [fst].
    split; [now vm_compute|split; [reflexivity|]].
    repeat (apply Forall_cons; [lra|]); apply Forall_nil.
  - unfold uniform_draw, sizes, tmax; cbn [snd].
    split; [now vm_compute|split; [reflexivity|]].
    repeat (apply Forall_cons; [lra|]); apply Forall_nil.
Defined.

End DataFacts.

(* ================================================================== *)
(** * Errors of the banded observation model, and the order of the job *)
(* ================================================================== *)

Section IndexErrors.

Import Py Banded.
Local Open Scope R_scope.

Lemma mapM_raise {A B} (f : A -> result B) (e : exn) (l : list A) :
  (forall x, In x l -> f x = Raise e \/ exists y, f x = Ok y) ->
  (exists x, In x l /\ f x = Raise e) ->
  mapM f l = Raise e.
Proof.
  induction l as [|a l IH]; intros Hall (x & Hx & Hfx); [destruct Hx|].
  simpl. destruct (Hall a (or_introl eq_refl)) as [->|[y Hy]];
    [reflexivity|].
  rewrite Hy. cbn [bind].
  rewrite IH; [reflexivity| |].
  - intros z Hz. apply Hall. now right.
  - destruct Hx as [->|Hx]; [congruence|]. now exists x.
Qed.

Lemma index_out_of_range (n : nat) (c : Z) :
  ~ (- Z.of_nat n <= c < Z.of_nat n)%Z -> index n c = Raise IndexError.
Proof.
  intro H. unfold index.
  destruct (Z.leb_spec 0 c), (Z.ltb_spec c (Z.of_nat n)),
    (Z.leb_spec (- Z.of_nat n) c), (Z.ltb_spec c 0); cbn [andb];
    try reflexivity; lia.
Qed.

Lemma index_total (n : nat) (c : Z) :
  index n c = Raise IndexError \/ exists k, index n c = Ok k.
Proof.
  unfold index.
  destruct ((0 <=? c)%Z && (c <? Z.of_nat n)%Z); [right; eauto|].
  destruct ((- Z.of_nat n <=? c)%Z && (c <? 0)%Z); [right; eauto|now left].
Qed.

Lemma fancy_index_out_of_range (a : list R) (idx : list Z) (c : Z) :
  In c idx ->
  ~ (- Z.of_nat (List.length a) <= c < Z.of_nat (List.length a))%Z ->
  fancy_index a idx = Raise IndexError.
Proof.
  intros Hin Hout. unfold fancy_index. apply mapM_raise.
  - intros x _. cbn beta.
    destruct (index_total (List.length a) x) as [E|[k E]]; rewrite E;
      cbn [bind]; [now left|right; eauto].
  - exists c. split; [exact Hin|]. cbn beta.
    now rewrite index_out_of_range.
Qed.

Lemma select_nth_In {A} (a : list A) (m : list bool) (i : nat) (d : A) :
  (i < List.length a)%nat -> nth i m false = true ->
  In (nth i a d) (select a m).
Proof.
  revert m i; induction a as [|x a IH]; intros [|c m] i Hi Hm;
    simpl in *; try lia; try (destruct i; discriminate).
  destruct i as [|i].
  - subst c. now left.
  - destruct c; [right|]; apply IH; auto; lia.
Qed.

(** X15.  The cell reads [caliberr] at the calibration of two
    neighbouring observations that share it: when that calibration is
    not an index of [caliberr], the cell raises [IndexError]. *)
Theorem off_diags_index_error (nt : Z) (calib_id : list Z)
    (caliberr : list R) (i : nat) :
  nt = Z.of_nat (List.length calib_id) ->
  (i + 1 < List.length calib_id)%nat ->
  nth i calib_id 0%Z = nth (i + 1) calib_id 0%Z ->
  ~ (- Z.of_nat (List.length caliberr) <= nth i calib_id 0
     < Z.of_nat (List.length caliberr))%Z ->
  off_diags nt calib_id caliberr = Raise IndexError.
Proof.
  intros -> Hi Heq Hout.
  set (n := List.length calib_id) in *.
  assert (Hne : calib_id <> []) by (intros E; subst n; rewrite E in Hi; simpl in Hi; lia).
  destruct (bandwidth_multiplicity calib_id Hne) as (bw & Hbw & Hle & _).
  assert (Hbw1 : (1 <= bw)%nat).
  { specialize (Hle (nth i calib_id 0%Z)). unfold multiplicity in Hle.
    assert (H := count_occ_run calib_id (nth i calib_id 0%Z) i (i + 1)
                   ltac:(fold n; lia)).
    assert (Hrun : forall j, (i <= j <= i + 1)%nat ->
                     nth j calib_id 0%Z = nth i calib_id 0%Z).
    { intros j Hj. assert (Hj' : j = i \/ j = (i + 1)%nat) by lia.
      destruct Hj' as [->| ->]; [reflexivity|now symmetry]. }
    specialize (H Hrun). lia. }
  destruct (zeros_written calib_id caliberr bw) as (z & Hz & _).
  fold n in Hz.
  unfold off_diags. rewrite Hbw. cbn [bind]. rewrite Hz. cbn [bind].
  unfold range. rewrite Nat2Z.id.
  destruct bw as [|bw]; [lia|]. cbn [seq map for_each].
  assert (Hbody : loop_body (Z.of_nat n) calib_id caliberr z (Z.of_nat 0)
                  = Raise IndexError).
  { unfold loop_body.
    replace (Z.of_nat n - Z.of_nat 0 - 1)%Z with (Z.of_nat (n - 1)) by lia.
    replace (Z.of_nat 0 + 1)%Z with (Z.of_nat 1) by lia.
    rewrite take_nat, drop_nat by (fold n; lia).
    assert (Hfst : List.length (firstn (n - 1) calib_id) = (n - 1)%nat)
      by (rewrite length_firstn; fold n; lia).
    assert (Hskp : List.length (skipn 1 calib_id) = (n - 1)%nat)
      by (rewrite length_skipn; fold n; lia).
    rewrite array_eq_same_length by congruence. cbn [bind].
    set (m := map (fun p => (fst p =? snd p)%Z)
                  (combine (firstn (n - 1) calib_id) (skipn 1 calib_id))).
    assert (Hm : List.length m = (n - 1)%nat).
    { unfold m. rewrite length_map, length_combine. lia. }
    unfold mask_select. rewrite Hfst, Hm, Nat.eqb_refl. cbn [bind].
    rewrite (fancy_index_out_of_range caliberr _ (nth i calib_id 0%Z));
      [reflexivity| |exact Hout].
    replace (nth i calib_id 0%Z) with (nth i (firstn (n - 1) calib_id) 0%Z).
    - apply select_nth_In; [lia|].
      unfold m. rewrite nth_eq_mask by lia.
      rewrite nth_firstn, nth_skipn.
      destruct (Nat.ltb_spec i (n - 1)); [|lia].
      replace (1 + i)%nat with (i + 1)%nat by lia.
      rewrite Heq. apply Z.eqb_refl.
    - rewrite nth_firstn. destruct (Nat.ltb_spec i (n - 1)); [reflexivity|lia]. }
  rewrite Hbody. reflexivity.
Qed.

Lemma off_diags_index_error_witness :
  off_diags 3 [0; 2; 2]%Z [3; 5] = Raise IndexError.
Proof.
  apply (off_diags_index_error 3 [0; 2; 2]%Z [3; 5] 1).
  - reflexivity.
  - simpl; lia.
  - reflexivity.
  - simpl; lia.
Defined.

End IndexErrors.

Section JobOrder.

Import Workflow.

(** X16.  In every run of the news job the checkout is started; the
    changelog check is started exactly when checkout, Python set-up and
    installation have all succeeded; and when the checkout fails nothing
    else is started. *)
Theorem check_for_news_needs_setup {PR Env : Type} (r : runner PR Env)
    (pr : PR) (env : Env) :
  In checkout (steps_started r news_job pr env)
  /\ (In check_for_news (steps_started r news_job pr env)
      <-> fst (fst (run_steps r setup_steps pr env)) = success)
  /\ (fst (r checkout pr env) = failure ->
      steps_started r news_job pr env = [checkout]).
Proof.
  unfold steps_started, run_job.
  cbn [news_job steps setup_steps run_steps].
  destruct (r checkout pr env) as [[|] e1];
    cbn [continue_on_error checkout fst snd].
  2:{ split; [now left|]. split; [|reflexivity].
      split; [intros [H|[]]; discriminate|discriminate]. }
  destruct (r setup_python pr e1) as [[|] e2];
    cbn [continue_on_error setup_python fst snd].
  2:{ split; [now left|]. split; [|discriminate].
      split; [intros [H|[H|[]]]; discriminate|discriminate]. }
  destruct (r install_dependencies pr e2) as [[|] e3];
    cbn [continue_on_error install_dependencies fst snd].
  2:{ split; [now left|]. split; [|discriminate].
      split; [intros [H|[H|[H|[]]]]; discriminate|discriminate]. }
  destruct (r check_for_news pr e3) as [[|] e4];
    cbn [continue_on_error check_for_news fst snd];
    (split; [now left|]; split; [|discriminate]);
    (split; [reflexivity|intros _; right; right; right; now left]).
Qed.

End JobOrder.
